(** * Live market-data client: connection lifecycle and feed reducers

    A shallow embedding of the two React components of the frontend,
    [CoinMarketTable] (the paginated ticker table) and [CurrencyDetailPage]
    (the per-symbol candle view), together with the part of the browser they
    talk to: WebSocket objects, timeouts and [document.visibilityState].

    React state cells ([useState]) and reference cells ([useRef]) are fields
    of a state record; every callback of the source is a function from state
    to state; the browser delivers events one at a time ([step], [run]).
    Console output and rendering are left out. *)

From Stdlib Require Import List Ascii String ZArith Lia Bool PeanoNat.
From Stdlib Require Import Sorting.Sorted Sorting.Permutation.
From Stdlib Require Import Floats.PrimFloat.
Import ListNotations.

Local Open Scope string_scope.
Local Open Scope list_scope.

(** ** Wire records

    A JavaScript [number] that carries a price or a volume is a binary64
    float; the counters of a page (total, page, per_page) are integers. *)

Module TickerData.
Record t := mk { symbol : string; price : float; volume : float }.
End TickerData.

Module PaginatedResponse.
Record t := mk { data : list TickerData.t; total : Z; page : Z; per_page : Z }.
End PaginatedResponse.

(** The object handed to [JSON.stringify] before [ws.send]. *)
Module PageRequest.
Record t := mk { page : Z; per_page : Z }.
End PageRequest.

Module SymbolData.
Record t := mk {
  event_time : string;
  symbol : string;
  close_price : float;
  open_price : float;
  high_price : float;
  low_price : float;
  quote_volume : float }.
End SymbolData.

(** ** The browser *)

Module Browser.

Inductive ReadyState := CONNECTING | OPEN | CLOSING | CLOSED.

(** [document.visibilityState]. *)
Inductive VisibilityState := visible | hidden.

Record WebSocket := mkWebSocket {
  url : string;
  readyState : ReadyState;
  sent : list PageRequest.t   (* frames passed to [send], oldest first *) }.

Record Env := mkEnv {
  sockets : list WebSocket;       (* every socket constructed so far *)
  timers : list (nat * Z);        (* pending timeouts: handle, delay in ms *)
  nextTimer : nat;                (* the handle the next [setTimeout] returns *)
  visibilityState : VisibilityState }.

Definition set_sockets (l : list WebSocket) (e : Env) : Env :=
  mkEnv l (timers e) (nextTimer e) (visibilityState e).

Definition set_timers (l : list (nat * Z)) (e : Env) : Env :=
  mkEnv (sockets e) l (nextTimer e) (visibilityState e).

Definition set_visibilityState (v : VisibilityState) (e : Env) : Env :=
  mkEnv (sockets e) (timers e) (nextTimer e) v.

Fixpoint update (i : nat) (f : WebSocket -> WebSocket) (l : list WebSocket)
  : list WebSocket :=
  match l, i with
  | [], _ => []
  | w :: l', O => f w :: l'
  | w :: l', S i' => w :: update i' f l'
  end.

Definition readyState_of (i : nat) (e : Env) : option ReadyState :=
  option_map readyState (nth_error (sockets e) i).

Definition set_readyState (r : ReadyState) (w : WebSocket) : WebSocket :=
  mkWebSocket (url w) r (sent w).

(** [new WebSocket(url)] when it does not throw: the socket starts in
    CONNECTING and is named by its allocation index. *)
Definition construct (u : string) (e : Env) : nat * Env :=
  (List.length (sockets e),
   set_sockets (sockets e ++ [mkWebSocket u CONNECTING []]) e).

(** [ws.close()]: starts closing a socket that is connecting or open, and
    does nothing to one that is already closing or closed. *)
Definition close_socket (w : WebSocket) : WebSocket :=
  match readyState w with
  | CONNECTING | OPEN => set_readyState CLOSING w
  | CLOSING | CLOSED => w
  end.

Definition close (i : nat) (e : Env) : Env :=
  set_sockets (update i close_socket (sockets e)) e.

(** [ws.send(frame)]: the frame goes out on an open socket.  The source only
    calls [send] from [onopen] or behind a test for OPEN; on a closing or
    closed socket the platform drops the frame. *)
Definition send_socket (m : PageRequest.t) (w : WebSocket) : WebSocket :=
  match readyState w with
  | OPEN => mkWebSocket (url w) OPEN (sent w ++ [m])
  | _ => w
  end.

Definition send (i : nat) (m : PageRequest.t) (e : Env) : Env :=
  set_sockets (update i (send_socket m) (sockets e)) e.

(** [window.setTimeout(callback, delay)]. *)
Definition setTimeout (delay : Z) (e : Env) : nat * Env :=
  (nextTimer e,
   mkEnv (sockets e) (timers e ++ [(nextTimer e, delay)]) (S (nextTimer e))
         (visibilityState e)).

(** [window.clearTimeout(handle)]: a handle that is not pending is ignored. *)
Definition clearTimeout (h : nat) (e : Env) : Env :=
  set_timers (filter (fun t => negb (Nat.eqb (fst t) h)) (timers e)) e.

Definition pending (h : nat) (e : Env) : bool :=
  existsb (fun t => Nat.eqb (fst t) h) (timers e).

Definition is_hidden (e : Env) : bool :=
  match visibilityState e with hidden => true | visible => false end.

Definition is_visible (e : Env) : bool := negb (is_hidden e).

Definition emptyEnv (v : VisibilityState) : Env := mkEnv [] [] 0 v.

(** Every pending timeout has the retry delay of the two components. *)
Definition fixed_delay (e : Env) : Prop :=
  Forall (fun t => snd t = 5000%Z) (timers e).

End Browser.

(** ** CoinMarketTable.tsx: the ticker table *)

Module CoinMarketTable.
Import Browser.

Definition endpoint : string := "ws://127.0.0.1:8080".

Definition initialPaginatedData : PaginatedResponse.t :=
  PaginatedResponse.mk [] 0 1 30.

Record State := mkState {
  paginatedData : PaginatedResponse.t;          (* useState *)
  isConnected : bool;                           (* useState *)
  error : option string;                        (* useState *)
  wsRef : option nat;                           (* useRef *)
  reconnectTimeoutRef : option nat;             (* useRef *)
  isUnmounting : bool;                          (* useRef *)
  effect_paginatedData : PaginatedResponse.t;
    (* the [paginatedData] binding of the render whose effect is installed:
       the dependency list of the effect is empty, so the callbacks it
       creates keep reading this binding *)
  listening : bool;        (* the visibilitychange listener is registered *)
  env : Env }.

Definition setPaginatedData (r : PaginatedResponse.t) (s : State) : State :=
  mkState r (isConnected s) (error s) (wsRef s) (reconnectTimeoutRef s)
          (isUnmounting s) (effect_paginatedData s) (listening s) (env s).

Definition setIsConnected (b : bool) (s : State) : State :=
  mkState (paginatedData s) b (error s) (wsRef s) (reconnectTimeoutRef s)
          (isUnmounting s) (effect_paginatedData s) (listening s) (env s).

Definition setError (m : option string) (s : State) : State :=
  mkState (paginatedData s) (isConnected s) m (wsRef s) (reconnectTimeoutRef s)
          (isUnmounting s) (effect_paginatedData s) (listening s) (env s).

Definition set_wsRef (w : option nat) (s : State) : State :=
  mkState (paginatedData s) (isConnected s) (error s) w (reconnectTimeoutRef s)
          (isUnmounting s) (effect_paginatedData s) (listening s) (env s).

Definition set_reconnectTimeoutRef (h : option nat) (s : State) : State :=
  mkState (paginatedData s) (isConnected s) (error s) (wsRef s) h
          (isUnmounting s) (effect_paginatedData s) (listening s) (env s).

Definition set_isUnmounting (b : bool) (s : State) : State :=
  mkState (paginatedData s) (isConnected s) (error s) (wsRef s)
          (reconnectTimeoutRef s) b (effect_paginatedData s) (listening s)
          (env s).

Definition set_effect_paginatedData (r : PaginatedResponse.t) (s : State)
  : State :=
  mkState (paginatedData s) (isConnected s) (error s) (wsRef s)
          (reconnectTimeoutRef s) (isUnmounting s) r (listening s) (env s).

Definition set_listening (b : bool) (s : State) : State :=
  mkState (paginatedData s) (isConnected s) (error s) (wsRef s)
          (reconnectTimeoutRef s) (isUnmounting s) (effect_paginatedData s) b
          (env s).

Definition set_env (e : Env) (s : State) : State :=
  mkState (paginatedData s) (isConnected s) (error s) (wsRef s)
          (reconnectTimeoutRef s) (isUnmounting s) (effect_paginatedData s)
          (listening s) e.

(** [wsRef.current?.readyState === WebSocket.OPEN] *)
Definition ws_is_open (s : State) : bool :=
  match wsRef s with
  | Some i =>
      match readyState_of i (env s) with
      | Some OPEN => true
      | _ => false
      end
  | None => false
  end.

Section Platform.

(** Whether [new WebSocket(u)] throws for the URL [u]. *)
Variable WebSocket_throws : string -> bool.

Definition connectWebSocket (s : State) : State :=
  if isUnmounting s || ws_is_open s then s
  else
    let s1 :=
      match wsRef s with
      | Some i => set_wsRef None (set_env (close i (env s)) s)
      | None => s
      end in
    if WebSocket_throws endpoint then
      if negb (isUnmounting s1)
      then setIsConnected false
             (setError (Some "Failed to connect to WebSocket") s1)
      else s1
    else
      let (ws, e) := construct endpoint (env s1) in
      set_wsRef (Some ws) (set_env e s1).

(** The callbacks attached to the socket [ws] by [connectWebSocket]. *)

Definition onopen (ws : nat) (s : State) : State :=
  if negb (isUnmounting s) then
    let s1 := setError None (setIsConnected true s) in
    set_env
      (send ws
         (PageRequest.mk
            (PaginatedResponse.page (effect_paginatedData s1))
            (PaginatedResponse.per_page (effect_paginatedData s1)))
         (env s1))
      s1
  else s.

(** [parsed] is the outcome of [JSON.parse(event.data)]: [None] when it
    throws, else the decoded page. *)
Definition onmessage (parsed : option PaginatedResponse.t) (s : State)
  : State :=
  if negb (isUnmounting s) then
    match parsed with
    | Some response => setPaginatedData response s
    | None => s
    end
  else s.

(** The message events of a sequence of inbound frames, oldest first. *)
Definition receive (s : State) (frames : list (option PaginatedResponse.t))
  : State :=
  fold_left (fun st parsed => onmessage parsed st) frames s.

Definition onerror (s : State) : State :=
  if negb (isUnmounting s) then
    setIsConnected false (setError (Some "WebSocket error occurred") s)
  else s.

Definition onclose (wasClean : bool) (s : State) : State :=
  if negb (isUnmounting s) then
    let s1 := setIsConnected false s in
    if negb wasClean && negb (isUnmounting s1) && negb (is_hidden (env s1))
    then
      let (h, e) := setTimeout 5000 (env s1) in
      set_reconnectTimeoutRef (Some h) (set_env e s1)
    else s1
  else s.

Definition handleVisibilityChange (s : State) : State :=
  if is_visible (env s) then connectWebSocket s else s.

(** The body of the effect, run once when the component mounts. *)
Definition useEffect_setup (s : State) : State :=
  connectWebSocket
    (set_listening true
       (set_effect_paginatedData (paginatedData s)
          (set_isUnmounting false s))).

(** The function the effect returns, run when the component unmounts. *)
Definition useEffect_cleanup (s : State) : State :=
  let s1 := set_listening false (set_isUnmounting true s) in
  let s2 :=
    match reconnectTimeoutRef s1 with
    | Some h => set_env (clearTimeout h (env s1)) s1
    | None => s1
    end in
  match wsRef s2 with
  | Some i => set_wsRef None (set_env (close i (env s2)) s2)
  | None => s2
  end.

Definition handlePageChange (newPage : Z) (s : State) : State :=
  if ws_is_open s then
    match wsRef s with
    | Some i =>
        set_env
          (send i
             (PageRequest.mk newPage
                (PaginatedResponse.per_page (paginatedData s)))
             (env s))
          s
    | None => s
    end
  else s.

(** What can happen to a mounted component.  Socket events name the socket
    they are delivered to; an event that the browser cannot deliver in the
    current state (an unknown socket, a close event on a closed socket, a
    timeout that is not pending) leaves the state alone. *)
Inductive Event :=
| Open (ws : nat)
| Message (ws : nat) (parsed : option PaginatedResponse.t)
| Error (ws : nat)
| Close (ws : nat) (wasClean : bool)
| Timeout (h : nat)
| VisibilityChange (v : VisibilityState)
| PageChange (newPage : Z)
| Unmount.

Definition set_socket_state (ws : nat) (r : ReadyState) (s : State) : State :=
  set_env (set_sockets (update ws (set_readyState r) (sockets (env s))) (env s))
          s.

Definition step (s : State) (ev : Event) : State :=
  match ev with
  | Open ws =>
      match readyState_of ws (env s) with
      | Some CONNECTING => onopen ws (set_socket_state ws OPEN s)
      | _ => s
      end
  | Message ws parsed =>
      match readyState_of ws (env s) with
      | Some OPEN | Some CLOSING => onmessage parsed s
      | _ => s
      end
  | Error ws =>
      match readyState_of ws (env s) with
      | Some CONNECTING | Some OPEN | Some CLOSING => onerror s
      | _ => s
      end
  | Close ws wasClean =>
      match readyState_of ws (env s) with
      | Some CONNECTING | Some OPEN | Some CLOSING =>
          onclose wasClean (set_socket_state ws CLOSED s)
      | _ => s
      end
  | Timeout h =>
      if pending h (env s)
      then connectWebSocket (set_env (clearTimeout h (env s)) s)
      else s
  | VisibilityChange v =>
      let s1 := set_env (set_visibilityState v (env s)) s in
      if listening s1 then handleVisibilityChange s1 else s1
  | PageChange newPage => handlePageChange newPage s
  | Unmount => useEffect_cleanup s
  end.

Definition run (s : State) (evs : list Event) : State := fold_left step evs s.

End Platform.

(** Teardown has begun and the channel reference is released. *)
Definition torn_down (s : State) : Prop :=
  isUnmounting s = true /\ wsRef s = None.

(** From [s] to [s'] the component did nothing: no socket was constructed,
    no frame was sent, no timeout was set (pending ones may have gone), and
    what the view shows is the same. *)
Definition no_activity (s s' : State) : Prop :=
  List.length (sockets (env s')) = List.length (sockets (env s))
  /\ map sent (sockets (env s')) = map sent (sockets (env s))
  /\ nextTimer (env s') = nextTimer (env s)
  /\ incl (timers (env s')) (timers (env s))
  /\ paginatedData s' = paginatedData s
  /\ isConnected s' = isConnected s
  /\ error s' = error s.

(** The component before its effect has run. *)
Definition initial (v : VisibilityState) : State :=
  mkState initialPaginatedData false None None None false
          initialPaginatedData false (emptyEnv v).

End CoinMarketTable.

(** ** CurrencyDetailPage: the candle view of one symbol

    The sources hold this component twice.  [Overview] is the file
    CurrencyDetailPage.tsx (it stores each decoded batch as it arrives);
    [PriceChart] is the component of the same name that follows the table in
    CoinMarketTable.tsx (it sorts a batch and derives display fields).  Their
    connection code is the same but for the wording of two messages. *)

Module CurrencyDetailPage.
Import Browser.

Inductive Revision := Overview | PriceChart.

(** An element of [processedData]: the candle ([...item]) and the two fields
    derived from it. *)
Record ProcessedData := mkProcessedData {
  item : SymbolData.t;
  formattedTime : string;
  priceChange : float }.

(** The elements of the [data] state cell. *)
Definition Row (r : Revision) : Type :=
  match r with
  | Overview => SymbolData.t
  | PriceChart => ProcessedData
  end.

(** [let { symbol } = useParams(); if (!symbol) { symbol = "BTCUSDT"; }]:
    a missing parameter and the empty string are both falsy. *)
Definition resolveSymbol (param : option string) : string :=
  match param with
  | Some EmptyString => "BTCUSDT"
  | Some s => s
  | None => "BTCUSDT"
  end.

Definition endpoint (symbol : string) : string :=
  String.append "ws://127.0.0.1:8080/currency/" symbol.

Definition errorText (r : Revision) : string :=
  match r with
  | Overview => "WebSocket error occurred"
  | PriceChart => "WebSocket error occurred. Make sure the backend is running."
  end.

Definition failureText (r : Revision) : string :=
  match r with
  | Overview => "Failed to connect to WebSocket"
  | PriceChart =>
      "Failed to connect to WebSocket. Make sure the backend is running at 127.0.0.1:8080."
  end.

Record State (r : Revision) := mkState {
  data : list (Row r);                          (* useState *)
  isConnected : bool;                           (* useState *)
  error : option string;                        (* useState *)
  wsRef : option nat;                           (* useRef *)
  reconnectTimeoutRef : option nat;             (* useRef *)
  isUnmounting : bool;                          (* useRef *)
  symbol : string;         (* the resolved route parameter *)
  listening : bool;        (* the visibilitychange listener is registered *)
  env : Env }.

Arguments mkState {r}.
Arguments data {r}.
Arguments isConnected {r}.
Arguments error {r}.
Arguments wsRef {r}.
Arguments reconnectTimeoutRef {r}.
Arguments isUnmounting {r}.
Arguments symbol {r}.
Arguments listening {r}.
Arguments env {r}.

Section Component.

Variable r : Revision.

(** Whether [new WebSocket(u)] throws for the URL [u]. *)
Variable WebSocket_throws : string -> bool.

(** [new Date(t).getTime()] in milliseconds; [None] is NaN, the time of a
    string that is not a date. *)
Variable Date_getTime : string -> option Z.

(** [new Date(t).toLocaleTimeString([], { hour: "2-digit", minute: "2-digit" })],
    which depends on the locale of the browser. *)
Variable toLocaleTimeString : string -> string.

Definition setData (d : list (Row r)) (s : State r) : State r :=
  mkState d (isConnected s) (error s) (wsRef s) (reconnectTimeoutRef s)
          (isUnmounting s) (symbol s) (listening s) (env s).

Definition setIsConnected (b : bool) (s : State r) : State r :=
  mkState (data s) b (error s) (wsRef s) (reconnectTimeoutRef s)
          (isUnmounting s) (symbol s) (listening s) (env s).

Definition setError (m : option string) (s : State r) : State r :=
  mkState (data s) (isConnected s) m (wsRef s) (reconnectTimeoutRef s)
          (isUnmounting s) (symbol s) (listening s) (env s).

Definition set_wsRef (w : option nat) (s : State r) : State r :=
  mkState (data s) (isConnected s) (error s) w (reconnectTimeoutRef s)
          (isUnmounting s) (symbol s) (listening s) (env s).

Definition set_reconnectTimeoutRef (h : option nat) (s : State r) : State r :=
  mkState (data s) (isConnected s) (error s) (wsRef s) h
          (isUnmounting s) (symbol s) (listening s) (env s).

Definition set_isUnmounting (b : bool) (s : State r) : State r :=
  mkState (data s) (isConnected s) (error s) (wsRef s)
          (reconnectTimeoutRef s) b (symbol s) (listening s) (env s).

Definition set_listening (b : bool) (s : State r) : State r :=
  mkState (data s) (isConnected s) (error s) (wsRef s)
          (reconnectTimeoutRef s) (isUnmounting s) (symbol s) b (env s).

Definition set_env (e : Env) (s : State r) : State r :=
  mkState (data s) (isConnected s) (error s) (wsRef s)
          (reconnectTimeoutRef s) (isUnmounting s) (symbol s) (listening s) e.

(** [wsRef.current?.readyState === WebSocket.OPEN] *)
Definition ws_is_open (s : State r) : bool :=
  match wsRef s with
  | Some i =>
      match readyState_of i (env s) with
      | Some OPEN => true
      | _ => false
      end
  | None => false
  end.

Definition connectWebSocket (s : State r) : State r :=
  if isUnmounting s || ws_is_open s then s
  else
    let s1 :=
      match wsRef s with
      | Some i => set_wsRef None (set_env (close i (env s)) s)
      | None => s
      end in
    if WebSocket_throws (endpoint (symbol s1)) then
      if negb (isUnmounting s1)
      then setIsConnected false (setError (Some (failureText r)) s1)
      else s1
    else
      let (ws, e) := construct (endpoint (symbol s1)) (env s1) in
      set_wsRef (Some ws) (set_env e s1).

Definition onopen (s : State r) : State r :=
  if negb (isUnmounting s) then setError None (setIsConnected true s) else s.

Definition formatTimeLabel (timestamp : string) : string :=
  toLocaleTimeString timestamp.

(** The comparison function handed to [sort].  The two times are integers
    of at most 8.64e15 in magnitude, so the sign of their float difference is
    the sign of the exact one; a NaN result counts as zero for [sort]. *)
Definition compareFn (a b : SymbolData.t) : Z :=
  match Date_getTime (SymbolData.event_time a),
        Date_getTime (SymbolData.event_time b) with
  | Some ta, Some tb => ta - tb
  | _, _ => 0
  end.

(** [Array.prototype.sort] is stable: an element goes behind those already
    placed that do not compare greater.  When every candle is dated the
    comparison function is consistent and the result of a stable sort is
    determined (sorted, a permutation, equal times in their order of
    arrival); with an undated candle JavaScript leaves the order to the
    engine, and this definition picks one. *)
Fixpoint insert (x : SymbolData.t) (l : list SymbolData.t)
  : list SymbolData.t :=
  match l with
  | [] => [x]
  | y :: l' =>
      if (0 <? compareFn x y)%Z then y :: insert x l' else x :: y :: l'
  end.

Fixpoint sort (l : list SymbolData.t) : list SymbolData.t :=
  match l with
  | [] => []
  | x :: l' => insert x (sort l')
  end.

(** The [event_time] of the candle is a date. *)
Definition is_dated (a : SymbolData.t) : bool :=
  match Date_getTime (SymbolData.event_time a) with
  | Some _ => true
  | None => false
  end.

(** The candle is dated and its time is [k]. *)
Definition at_time (k : Z) (a : SymbolData.t) : bool :=
  match Date_getTime (SymbolData.event_time a) with
  | Some t => (t =? k)%Z
  | None => false
  end.

(** Both candles are dated and [a] is not later than [b]. *)
Definition not_later (a b : SymbolData.t) : Prop :=
  match Date_getTime (SymbolData.event_time a),
        Date_getTime (SymbolData.event_time b) with
  | Some ta, Some tb => (ta <= tb)%Z
  | _, _ => False
  end.

Definition process (it : SymbolData.t) : ProcessedData :=
  mkProcessedData it
    (formatTimeLabel (SymbolData.event_time it))
    (SymbolData.close_price it - SymbolData.open_price it)%float.

(** What [onmessage] stores for a decoded batch, or [None] when it leaves
    the [data] cell alone. *)
Definition reduce (parsedData : list SymbolData.t) : option (list (Row r)) :=
  match r return option (list (Row r)) with
  | Overview => Some parsedData
  | PriceChart =>
      if (0 <? List.length parsedData)%nat
      then Some (map process (sort parsedData))
      else None
  end.

(** [parsed] is the outcome of [JSON.parse(event.data)]: [None] when it
    throws, else the decoded batch. *)
Definition onmessage (parsed : option (list SymbolData.t)) (s : State r)
  : State r :=
  if negb (isUnmounting s) then
    match parsed with
    | Some parsedData =>
        match reduce parsedData with
        | Some d => setData d s
        | None => s
        end
    | None => s
    end
  else s.

Definition onerror (s : State r) : State r :=
  if negb (isUnmounting s) then
    setIsConnected false (setError (Some (errorText r)) s)
  else s.

Definition onclose (wasClean : bool) (s : State r) : State r :=
  if negb (isUnmounting s) then
    let s1 := setIsConnected false s in
    if negb wasClean && negb (is_hidden (env s1)) then
      let (h, e) := setTimeout 5000 (env s1) in
      set_reconnectTimeoutRef (Some h) (set_env e s1)
    else s1
  else s.

Definition handleVisibilityChange (s : State r) : State r :=
  if is_visible (env s) then connectWebSocket s else s.

Definition useEffect_setup (s : State r) : State r :=
  connectWebSocket (set_listening true (set_isUnmounting false s)).

Definition useEffect_cleanup (s : State r) : State r :=
  let s1 := set_listening false (set_isUnmounting true s) in
  let s2 :=
    match reconnectTimeoutRef s1 with
    | Some h => set_env (clearTimeout h (env s1)) s1
    | None => s1
    end in
  match wsRef s2 with
  | Some i => set_wsRef None (set_env (close i (env s2)) s2)
  | None => s2
  end.

End Component.

(** The component rendered for the route parameter [param], before its
    effect has run. *)
Definition initial (r : Revision) (param : option string)
  (v : VisibilityState) : State r :=
  mkState [] false None None None false (resolveSymbol param) false
          (emptyEnv v).

End CurrencyDetailPage.

(** ** Sample values, for running the model on concrete inputs *)

Module Samples.
Import Browser.

Definition never_throws : string -> bool := fun _ => false.

Definition btc : TickerData.t := TickerData.mk "BTCUSDT" 97000.5 1200000000.
Definition eth : TickerData.t := TickerData.mk "ETHUSDT" 3400.25 800000000.
Definition sol : TickerData.t := TickerData.mk "SOLUSDT" 190.75 90000000.

Definition firstPage : PaginatedResponse.t :=
  PaginatedResponse.mk [btc; eth] 120 1 30.

Definition thirdPage : PaginatedResponse.t :=
  PaginatedResponse.mk [sol] 120 3 30.

(** Two instants, one minute apart, as [Date] reads them. *)
Definition getTime (t : string) : option Z :=
  if String.eqb t "2025-01-01T00:00:00Z" then Some 1735689600000%Z
  else if String.eqb t "2025-01-01T00:01:00Z" then Some 1735689660000%Z
  else None.

(** Hours and minutes of an ISO-8601 instant. *)
Definition clock (t : string) : string := substring 11 5 t.

Definition early : SymbolData.t :=
  SymbolData.mk "2025-01-01T00:00:00Z" "ETHUSDT" 3400.5 3400 3401 3399 1000.

Definition late : SymbolData.t :=
  SymbolData.mk "2025-01-01T00:01:00Z" "ETHUSDT" 3399.25 3400.5 3402 3398 1500.

(** An Overview view that holds two candles. *)
Definition holding : CurrencyDetailPage.State CurrencyDetailPage.Overview :=
  CurrencyDetailPage.onmessage CurrencyDetailPage.Overview getTime clock
    (Some [early; late])
    (CurrencyDetailPage.useEffect_setup CurrencyDetailPage.Overview
       never_throws
       (CurrencyDetailPage.initial CurrencyDetailPage.Overview
          (Some "ETHUSDT") visible)).

(** The table, mounted in a visible tab. *)
Definition mountedTable : CoinMarketTable.State :=
  CoinMarketTable.useEffect_setup never_throws
    (CoinMarketTable.initial visible).

(** The table once its first socket has opened. *)
Definition liveTable : CoinMarketTable.State :=
  CoinMarketTable.run never_throws mountedTable [CoinMarketTable.Open 0].

(** The first connection fails; before the retry is due the tab is hidden
    and shown again, and the connection made then fails too. *)
Definition twoFailures : list CoinMarketTable.Event :=
  [CoinMarketTable.Close 0 false;
   CoinMarketTable.VisibilityChange hidden;
   CoinMarketTable.VisibilityChange visible;
   CoinMarketTable.Close 1 false].

(** The user moves to page 3, the server answers, the connection drops and
    the retry opens a second socket. *)
Definition reopenOnThirdPage : list CoinMarketTable.Event :=
  [CoinMarketTable.Open 0;
   CoinMarketTable.PageChange 3;
   CoinMarketTable.Message 0 (Some thirdPage);
   CoinMarketTable.Close 0 false;
   CoinMarketTable.Timeout 0;
   CoinMarketTable.Open 1].




End Samples.

(** ** Frames and channels, for stating what a run of events leaves *)

Module Feed.

(** The frames of a sequence that [JSON.parse] accepted, oldest first. *)
Definition decoded {A : Type} (frames : list (option A)) : list A :=
  flat_map (fun f => match f with Some x => [x] | None => [] end) frames.

Definition nonempty {A : Type} (batch : list A) : bool :=
  match batch with
  | [] => false
  | _ :: _ => true
  end.

End Feed.

Module Channels.
Import Browser.

(** The socket [i] exists and is connecting or open. *)
Definition is_live_at (i : nat) (e : Env) : bool :=
  match readyState_of i e with
  | Some CONNECTING | Some OPEN => true
  | _ => false
  end.

(** Every socket has received its close event. *)
Definition all_closed (e : Env) : bool :=
  forallb (fun w => match readyState w with CLOSED => true | _ => false end)
          (sockets e).

End Channels.

(** ** What the table renders from its state (CoinMarketTable.tsx:176-214) *)

Module Rendering.

Fixpoint skip (n : nat) (s : string) : string :=
  match n, s with
  | O, _ => s
  | S n', String _ s' => skip n' s'
  | S _, EmptyString => EmptyString
  end.

(** [s.replace(pattern, replacement)] for a string pattern: the first
    occurrence is replaced, and a string without one is returned as it is.
    (The replacement strings of the source are empty, so the dollar patterns
    of JavaScript play no part.) *)
Fixpoint replace (pattern replacement s : string) : string :=
  if String.prefix pattern s
  then String.append replacement (skip (String.length pattern) s)
  else
    match s with
    | EmptyString => EmptyString
    | String c s' => String c (replace pattern replacement s')
    end.

(** The dimmed line under the symbol of a row:
    [ticker.symbol.replace("USDT", "").replace("USDC", "")]. *)
Definition baseLabel (symbol : string) : string :=
  replace "USDC" "" (replace "USDT" "" symbol).

(** The subtitle of the detail view: [symbol.replace("USDT", "")]. *)
Definition chartLabel (symbol : string) : string :=
  replace "USDT" "" symbol.




Definition no_capital_U (s : string) : bool :=
  forallb (fun c => negb (Ascii.eqb c "U"%char)) (list_ascii_of_string s).

End Rendering.

(** ** The detail view under the events of the browser

    The callbacks are those of [CurrencyDetailPage]; the events are those of
    the table but for the page click, which the detail view does not have.
    One run of the effect is covered, from mount to unmount: a change of
    symbol, which runs the cleanup and then the effect again on the same
    reference cells, is not among the events. *)

Module CurrencyDetailEvents.
Import Browser CurrencyDetailPage.

Inductive Event :=
| Open (ws : nat)
| Message (ws : nat) (parsed : option (list SymbolData.t))
| Error (ws : nat)
| Close (ws : nat) (wasClean : bool)
| Timeout (h : nat)
| VisibilityChange (v : VisibilityState)
| Unmount.

Section Component.

Variable r : Revision.
Variable WebSocket_throws : string -> bool.
Variable Date_getTime : string -> option Z.
Variable toLocaleTimeString : string -> string.

Definition set_socket_state (ws : nat) (st : ReadyState) (s : State r)
  : State r :=
  set_env r
    (set_sockets (update ws (set_readyState st) (sockets (env s))) (env s)) s.

Definition step (s : State r) (ev : Event) : State r :=
  match ev with
  | Open ws =>
      match readyState_of ws (env s) with
      | Some CONNECTING => onopen r (set_socket_state ws OPEN s)
      | _ => s
      end
  | Message ws parsed =>
      match readyState_of ws (env s) with
      | Some OPEN | Some CLOSING =>
          onmessage r Date_getTime toLocaleTimeString parsed s
      | _ => s
      end
  | Error ws =>
      match readyState_of ws (env s) with
      | Some CONNECTING | Some OPEN | Some CLOSING => onerror r s
      | _ => s
      end
  | Close ws wasClean =>
      match readyState_of ws (env s) with
      | Some CONNECTING | Some OPEN | Some CLOSING =>
          onclose r wasClean (set_socket_state ws CLOSED s)
      | _ => s
      end
  | Timeout h =>
      if pending h (env s)
      then connectWebSocket r WebSocket_throws
             (set_env r (clearTimeout h (env s)) s)
      else s
  | VisibilityChange v =>
      let s1 := set_env r (set_visibilityState v (env s)) s in
      if listening s1
      then handleVisibilityChange r WebSocket_throws s1
      else s1
  | Unmount => useEffect_cleanup r s
  end.

Definition run (s : State r) (evs : list Event) : State r :=
  fold_left step evs s.

(** The message events of a sequence of inbound frames, oldest first. *)
Definition receive (s : State r) (frames : list (option (list SymbolData.t)))
  : State r :=
  fold_left
    (fun st parsed => onmessage r Date_getTime toLocaleTimeString parsed st)
    frames s.

End Component.

End CurrencyDetailEvents.

(** ** Invariants of the table's channel *)

Module TableChannels.
Import Browser CoinMarketTable.

(** A socket that is connecting or open is the current channel: there is at
    most one, and the component holds it. *)
Definition single_channel (s : State) : Prop :=
  forall i, Channels.is_live_at i (env s) = true -> wsRef s = Some i.

(** While the view is mounted, the Live badge is shown only over an open
    current channel. *)
Definition live_badge_sound (s : State) : Prop :=
  isUnmounting s = false -> isConnected s = true -> ws_is_open s = true.

(** No visibility change to visible among the events. *)
Definition stays_hidden_or_as_is (evs : list Event) : bool :=
  forallb (fun ev => match ev with
                     | VisibilityChange visible => false
                     | _ => true
                     end) evs.

End TableChannels.

(** ** Invariants of the detail view's channel *)

Module DetailChannels.
Import Browser CurrencyDetailPage.

Definition single_channel {r : Revision} (s : State r) : Prop :=
  forall i, Channels.is_live_at i (env s) = true -> wsRef s = Some i.

Definition live_badge_sound {r : Revision} (s : State r) : Prop :=
  isUnmounting s = false -> isConnected s = true -> ws_is_open r s = true.

Definition torn_down {r : Revision} (s : State r) : Prop :=
  isUnmounting s = true /\ wsRef s = None.

(** From [s] to [s'] the component did nothing: no socket was constructed,
    no timeout was set (pending ones may have gone), and what the view
    shows is the same. *)
Definition no_activity {r : Revision} (s s' : State r) : Prop :=
  List.length (sockets (env s')) = List.length (sockets (env s))
  /\ nextTimer (env s') = nextTimer (env s)
  /\ incl (timers (env s')) (timers (env s))
  /\ data s' = data s
  /\ isConnected s' = isConnected s
  /\ error s' = error s.

End DetailChannels.

(** ** Further sample runs *)

Module Scenarios.
Import Browser Samples.

Definition always_throws : string -> bool := fun _ => true.

(** The table after its channel opened and the server closed it cleanly. *)
Definition cleanlyClosed : CoinMarketTable.State :=
  CoinMarketTable.run never_throws mountedTable
    [CoinMarketTable.Open 0; CoinMarketTable.Close 0 true].

(** Events that do not bring the tab back to visible. *)
Definition idleEvents : list CoinMarketTable.Event :=
  [CoinMarketTable.Timeout 0;
   CoinMarketTable.PageChange 2;
   CoinMarketTable.VisibilityChange hidden;
   CoinMarketTable.Message 0 (Some thirdPage);
   CoinMarketTable.Open 0].

(** The PriceChart view of ETHUSDT, mounted in a visible tab. *)
Definition mountedChart
  : CurrencyDetailPage.State CurrencyDetailPage.PriceChart :=
  CurrencyDetailPage.useEffect_setup CurrencyDetailPage.PriceChart
    never_throws
    (CurrencyDetailPage.initial CurrencyDetailPage.PriceChart
       (Some "ETHUSDT") visible).

(** A batch, a malformed frame and an empty batch. *)
Definition chartFrames : list (option (list SymbolData.t)) :=
  [Some [late; early]; None; Some []].


(** A constructor that rejects only the URL of the symbol [A#B]. *)
Definition throws_on_fragment : string -> bool :=
  fun u => String.eqb u "ws://127.0.0.1:8080/currency/A#B".

(** The PriceChart view of the symbol [A#B], before its effect has run. *)
Definition fragmentChart
  : CurrencyDetailPage.State CurrencyDetailPage.PriceChart :=
  CurrencyDetailPage.initial CurrencyDetailPage.PriceChart (Some "A#B")
    visible.

End Scenarios.

(** ** Proof automation *)

Ltac open_table :=
  unfold CoinMarketTable.step, CoinMarketTable.onopen,
    CoinMarketTable.onmessage, CoinMarketTable.onerror,
    CoinMarketTable.onclose, CoinMarketTable.handleVisibilityChange,
    CoinMarketTable.handlePageChange, CoinMarketTable.useEffect_cleanup,
    CoinMarketTable.useEffect_setup,
    CoinMarketTable.connectWebSocket, CoinMarketTable.ws_is_open,
    CoinMarketTable.set_socket_state.

Ltac open_detail :=
  unfold CurrencyDetailEvents.step, CurrencyDetailPage.onopen,
    CurrencyDetailPage.onmessage, CurrencyDetailPage.onerror,
    CurrencyDetailPage.onclose, CurrencyDetailPage.handleVisibilityChange,
    CurrencyDetailPage.useEffect_cleanup, CurrencyDetailPage.useEffect_setup,
    CurrencyDetailPage.connectWebSocket, CurrencyDetailPage.ws_is_open,
    CurrencyDetailEvents.set_socket_state.

Ltac open_browser :=
  unfold Browser.setTimeout, Browser.construct, Browser.close, Browser.send,
    Browser.clearTimeout, Browser.set_visibilityState, Browser.set_sockets,
    Browser.set_timers.

Ltac split_cases :=
  repeat match goal with
         | |- context [match ?x with _ => _ end] => destruct x eqn:?
         | |- context [if ?x then _ else _] => destruct x eqn:?
         end.

(** ** Properties of the browser model *)

Section BrowserFacts.
Import Browser.

Lemma update_length (i : nat) (f : WebSocket -> WebSocket) (l : list WebSocket) :
  List.length (update i f l) = List.length l.
Proof.
  revert i; induction l as [|w l IH]; intros [|i]; simpl; auto.
Qed.

Lemma update_nth_error_same (i : nat) (f : WebSocket -> WebSocket)
  (l : list WebSocket) :
  nth_error (update i f l) i = option_map f (nth_error l i).
Proof.
  revert i; induction l as [|w l IH]; intros [|i]; simpl; auto.
Qed.


Lemma filter_delay (d : Z) (p : nat * Z -> bool) (l : list (nat * Z)) :
  Forall (fun t => snd t = d) l -> Forall (fun t => snd t = d) (filter p l).
Proof.
  induction 1 as [|t l Ht Hl IH]; simpl; auto.
  destruct (p t); auto.
Qed.

Lemma update_fixpoint (i : nat) (f : WebSocket -> WebSocket)
  (l : list WebSocket) (w : WebSocket) :
  nth_error l i = Some w -> f w = w -> update i f l = l.
Proof.
  revert i; induction l as [|x l IH]; intros [|i]; simpl; try discriminate.
  - intros [= ->] ->. reflexivity.
  - intros N E. now rewrite (IH i N E).
Qed.

Lemma update_sent (i : nat) (f : WebSocket -> WebSocket) (l : list WebSocket) :
  (forall w, sent (f w) = sent w) ->
  map sent (update i f l) = map sent l.
Proof.
  intros F. revert i; induction l as [|x l IH]; intros [|i]; simpl; auto.
  - now rewrite F.
  - now rewrite IH.
Qed.

Lemma close_socket_sent (w : WebSocket) : sent (close_socket w) = sent w.
Proof. unfold close_socket. destruct (readyState w); reflexivity. Qed.

Lemma incl_filter (p : nat * Z -> bool) (l : list (nat * Z)) :
  incl (filter p l) l.
Proof. intros x H. apply filter_In in H. tauto. Qed.


End BrowserFacts.

(** ** The table's reducer *)

Section TableReducer.
Import CoinMarketTable.

Lemma receive_isUnmounting (frames : list (option PaginatedResponse.t))
  (s : State) :
  isUnmounting (receive s frames) = isUnmounting s.
Proof.
  unfold receive; revert s.
  induction frames as [|m frames IH]; intros s; simpl; auto.
  rewrite IH. unfold onmessage.
  destruct (isUnmounting s) eqn:U; simpl; auto.
  destruct m; simpl; auto.
Qed.

Lemma receive_app (s : State) (a b : list (option PaginatedResponse.t)) :
  receive s (a ++ b) = receive (receive s a) b.
Proof. unfold receive; apply fold_left_app. Qed.

(** C1. While the table is mounted, after any sequence of inbound frames
    (malformed ones included) that ends with a decoded page, the page state
    is exactly that last page: the rows shown are its [data] and nothing of
    an earlier page is left. *)
Theorem table_shows_last_payload
  (s : State) (earlier : list (option PaginatedResponse.t))
  (last : PaginatedResponse.t) :
  isUnmounting s = false ->
  paginatedData (receive s (earlier ++ [Some last])) = last
  /\ PaginatedResponse.data (paginatedData (receive s (earlier ++ [Some last])))
     = PaginatedResponse.data last.
Proof.
  intros U.
  assert (E : paginatedData (receive s (earlier ++ [Some last])) = last).
  { rewrite receive_app. simpl. unfold onmessage.
    rewrite receive_isUnmounting, U. reflexivity. }
  now rewrite E.
Qed.

Lemma table_shows_last_payload_witness :
  CoinMarketTable.isUnmounting Samples.mountedTable = false
  /\ PaginatedResponse.data
       (paginatedData
          (receive Samples.mountedTable
             ([Some Samples.firstPage; None] ++ [Some Samples.thirdPage])))
     = [Samples.sol].
Proof.
  split; [reflexivity|].
  exact (proj2 (table_shows_last_payload Samples.mountedTable
                  [Some Samples.firstPage; None] Samples.thirdPage eq_refl)).
Defined.

End TableReducer.

(** ** The detail view's reducer *)

Section DetailReducer.
Import Browser CurrencyDetailPage.

Variable Date_getTime : string -> option Z.
Variable toLocaleTimeString : string -> string.

Lemma insert_perm (x : SymbolData.t) (l : list SymbolData.t) :
  Permutation (insert Date_getTime x l) (x :: l).
Proof.
  induction l as [|y l IH]; simpl; auto.
  destruct (0 <? compareFn Date_getTime x y)%Z; auto.
  transitivity (y :: x :: l); [now constructor | apply perm_swap].
Qed.

Lemma sort_perm (l : list SymbolData.t) :
  Permutation (sort Date_getTime l) l.
Proof.
  induction l as [|x l IH]; simpl; auto.
  transitivity (x :: sort Date_getTime l);
    [apply insert_perm | now constructor].
Qed.

Lemma not_later_trans (a b c : SymbolData.t) :
  not_later Date_getTime a b -> not_later Date_getTime b c ->
  not_later Date_getTime a c.
Proof.
  unfold not_later.
  destruct (Date_getTime (SymbolData.event_time a)),
           (Date_getTime (SymbolData.event_time b)),
           (Date_getTime (SymbolData.event_time c)); try tauto; lia.
Qed.

(** On dated candles the comparison function decides [not_later]. *)
Lemma compareFn_dated (x y : SymbolData.t) :
  is_dated Date_getTime x = true -> is_dated Date_getTime y = true ->
  if (0 <? compareFn Date_getTime x y)%Z
  then not_later Date_getTime y x
  else not_later Date_getTime x y.
Proof.
  unfold is_dated, compareFn, not_later.
  destruct (Date_getTime (SymbolData.event_time x)) as [tx|]; [|discriminate].
  destruct (Date_getTime (SymbolData.event_time y)) as [ty|]; [|discriminate].
  intros _ _. destruct (Z.ltb_spec 0 (tx - ty)); lia.
Qed.

Lemma insert_sorted (x : SymbolData.t) (l : list SymbolData.t) :
  is_dated Date_getTime x = true ->
  forallb (is_dated Date_getTime) l = true ->
  StronglySorted (not_later Date_getTime) l ->
  StronglySorted (not_later Date_getTime) (insert Date_getTime x l).
Proof.
  intros Dx Dl Sl. induction Sl as [|y l Sl IH Hy]; simpl.
  - repeat constructor.
  - simpl in Dl. apply andb_true_iff in Dl as [Dy Dl].
    pose proof (compareFn_dated x y Dx Dy) as C.
    destruct (0 <? compareFn Date_getTime x y)%Z.
    + constructor; [now apply IH|].
      apply (Permutation_Forall (Permutation_sym (insert_perm x l))).
      now constructor.
    + constructor; [now constructor|].
      constructor; [assumption|].
      eapply Forall_impl; [|exact Hy].
      intros z Hz. now apply not_later_trans with y.
Qed.

Lemma sort_dated (l : list SymbolData.t) :
  forallb (is_dated Date_getTime) l = true ->
  forallb (is_dated Date_getTime) (sort Date_getTime l) = true.
Proof.
  intros D. apply forallb_forall. intros x Hx.
  rewrite forallb_forall in D. apply D.
  now apply (Permutation_in x (sort_perm l)).
Qed.

Lemma sort_sorted (l : list SymbolData.t) :
  forallb (is_dated Date_getTime) l = true ->
  StronglySorted (not_later Date_getTime) (sort Date_getTime l).
Proof.
  induction l as [|x l IH]; simpl; intros D.
  - constructor.
  - apply andb_true_iff in D as [Dx Dl].
    apply insert_sorted; auto using sort_dated.
Qed.

(** Candles of equal time keep their order of arrival. *)
Lemma insert_at_time (k : Z) (x : SymbolData.t) (l : list SymbolData.t) :
  filter (at_time Date_getTime k) (insert Date_getTime x l)
  = filter (at_time Date_getTime k) (x :: l).
Proof.
  induction l as [|y l IH]; [reflexivity|].
  simpl insert. destruct (0 <? compareFn Date_getTime x y)%Z eqn:C;
    [|reflexivity].
  simpl filter at 1. rewrite IH. simpl.
  unfold at_time, compareFn in *.
  destruct (Date_getTime (SymbolData.event_time x)) as [tx|];
    destruct (Date_getTime (SymbolData.event_time y)) as [ty|];
    try discriminate.
  destruct (Z.eqb_spec tx k), (Z.eqb_spec ty k); try reflexivity.
  apply Z.ltb_lt in C. lia.
Qed.

Lemma sort_stable (k : Z) (l : list SymbolData.t) :
  filter (at_time Date_getTime k) (sort Date_getTime l)
  = filter (at_time Date_getTime k) l.
Proof.
  induction l as [|x l IH]; [reflexivity|].
  simpl sort. rewrite insert_at_time. simpl. now rewrite IH.
Qed.

Lemma item_process (l : list SymbolData.t) :
  map item (map (process toLocaleTimeString) l) = l.
Proof. induction l as [|x l IH]; simpl; congruence. Qed.

(** C2, as the code has it.  The handler of the PriceChart revision ignores
    an empty batch: the whole state, and so the stored series, is unchanged.
    The handler of the Overview revision has no test for emptiness and
    stores every decoded batch, so there an empty batch empties the series. *)
Theorem empty_batch_by_revision
  (sc : State PriceChart) (so : State Overview) :
  isUnmounting so = false ->
  onmessage PriceChart Date_getTime toLocaleTimeString (Some []) sc = sc
  /\ data (onmessage Overview Date_getTime toLocaleTimeString (Some []) so)
     = [].
Proof.
  intros U. split.
  - unfold onmessage. destruct (isUnmounting sc); reflexivity.
  - unfold onmessage. rewrite U. reflexivity.
Qed.

(** C3, as the code has it.  For a non-empty batch of dated candles the
    PriceChart revision stores the batch sorted by time, whatever was stored
    before: the stored candles are a permutation of the batch, in
    non-decreasing [event_time], each with
    [priceChange = close_price - open_price].  The Overview revision stores
    the batch in its order of arrival and derives nothing. *)
Theorem batch_storage_by_revision
  (batch : list SymbolData.t) (sc : State PriceChart) (so : State Overview) :
  batch <> [] ->
  forallb (is_dated Date_getTime) batch = true ->
  isUnmounting sc = false ->
  isUnmounting so = false ->
  let stored :=
    data (onmessage PriceChart Date_getTime toLocaleTimeString (Some batch) sc)
  in
  stored = map (process toLocaleTimeString) (sort Date_getTime batch)
  /\ Permutation (map item stored) batch
  /\ StronglySorted (not_later Date_getTime) (map item stored)
  /\ Forall (fun row =>
               priceChange row
               = (SymbolData.close_price (item row)
                  - SymbolData.open_price (item row))%float) stored
  /\ data (onmessage Overview Date_getTime toLocaleTimeString (Some batch) so)
     = batch.
Proof.
  intros Hne D Uc Uo stored.
  assert (E : stored = map (process toLocaleTimeString) (sort Date_getTime batch)).
  { unfold stored, onmessage. rewrite Uc. simpl.
    destruct batch as [|c batch]; [congruence|reflexivity]. }
  rewrite E, item_process.
  repeat split.
  - apply sort_perm.
  - now apply sort_sorted.
  - apply Forall_forall. intros row Hrow.
    apply in_map_iff in Hrow as [c [<- _]]. reflexivity.
  - unfold onmessage. rewrite Uo. reflexivity.
Qed.

End DetailReducer.

Section DetailReducerExamples.
Import Browser CurrencyDetailPage Samples.

(** C2 fails on the Overview revision: a view that holds two candles holds
    none after an empty batch. *)
Lemma overview_empty_batch_clears :
  data holding = [early; late]
  /\ data (onmessage Overview getTime clock (Some []) holding) = []
  /\ List.length (data (onmessage Overview getTime clock (Some []) holding))
     <> List.length (data holding).
Proof. repeat split; try reflexivity. simpl. discriminate. Qed.

Lemma empty_batch_by_revision_witness :
  isUnmounting holding = false
  /\ data (onmessage Overview getTime clock (Some []) holding) = [].
Proof.
  split; [reflexivity|].
  exact (proj2 (empty_batch_by_revision getTime clock
                  (initial PriceChart None visible) holding eq_refl)).
Defined.

(** C3 fails on the Overview revision: a batch that arrives latest candle
    first is stored latest candle first. *)
Lemma overview_keeps_arrival_order :
  data (onmessage Overview getTime clock (Some [late; early]) holding)
  = [late; early]
  /\ ~ StronglySorted (not_later getTime) [late; early].
Proof.
  split; [reflexivity|].
  intros S. inversion S as [|a l _ F]; subst.
  inversion F as [|b l' H _]; subst.
  vm_compute in H. now apply H.
Qed.

Lemma batch_storage_by_revision_witness :
  [late; early] <> []
  /\ map item
       (data (onmessage PriceChart getTime clock (Some [late; early])
                (initial PriceChart (Some "ETHUSDT") visible)))
     = [early; late]
  /\ data (onmessage Overview getTime clock (Some [late; early]) holding)
     = [late; early].
Proof.
  pose proof (batch_storage_by_revision getTime clock [late; early]
                (initial PriceChart (Some "ETHUSDT") visible) holding
                ltac:(discriminate) eq_refl eq_refl eq_refl) as H.
  cbv zeta in H. destruct H as [E [_ [_ [_ O]]]].
  split; [discriminate|]. split; [|exact O].
  rewrite E. reflexivity.
Defined.

End DetailReducerExamples.

(** ** The table's connection lifecycle *)

Section TableLifecycle.
Import Browser CoinMarketTable.

Variable throws : string -> bool.

Lemma table_connect_noop (s : State) :
  isUnmounting s = true \/ ws_is_open s = true ->
  connectWebSocket throws s = s.
Proof.
  intros [H|H]; unfold connectWebSocket; rewrite H;
    [reflexivity | now rewrite orb_true_r].
Qed.

Lemma table_connect_replaces_connecting (s : State) (i : nat) :
  isUnmounting s = false ->
  wsRef s = Some i ->
  readyState_of i (env s) = Some CONNECTING ->
  throws endpoint = false ->
  sockets (env (connectWebSocket throws s))
  = update i close_socket (sockets (env s))
    ++ [mkWebSocket endpoint CONNECTING []]
  /\ readyState_of i (env (connectWebSocket throws s)) = Some CLOSING
  /\ wsRef (connectWebSocket throws s) = Some (List.length (sockets (env s))).
Proof.
  intros U W R T.
  unfold connectWebSocket, ws_is_open. rewrite U, W, R. simpl. rewrite T.
  simpl. rewrite update_length. repeat split.
  unfold readyState_of in *. simpl.
  destruct (nth_error (sockets (env s)) i) as [w|] eqn:N; [|discriminate].
  rewrite nth_error_app1.
  - rewrite update_nth_error_same, N. simpl in *.
    unfold close_socket. injection R as ->. reflexivity.
  - rewrite update_length. apply nth_error_Some. congruence.
Qed.

End TableLifecycle.

(** ** The detail view's connection lifecycle *)

Section DetailLifecycle.
Import Browser CurrencyDetailPage.

Variable r : Revision.
Variable throws : string -> bool.

Lemma detail_connect_noop (s : State r) :
  isUnmounting s = true \/ ws_is_open r s = true ->
  connectWebSocket r throws s = s.
Proof.
  intros [H|H]; unfold connectWebSocket; rewrite H;
    [reflexivity | now rewrite orb_true_r].
Qed.

Lemma detail_connect_replaces_connecting (s : State r) (i : nat) :
  isUnmounting s = false ->
  wsRef s = Some i ->
  readyState_of i (env s) = Some CONNECTING ->
  throws (endpoint (symbol s)) = false ->
  sockets (env (connectWebSocket r throws s))
  = update i close_socket (sockets (env s))
    ++ [mkWebSocket (endpoint (symbol s)) CONNECTING []]
  /\ readyState_of i (env (connectWebSocket r throws s)) = Some CLOSING
  /\ wsRef (connectWebSocket r throws s)
     = Some (List.length (sockets (env s))).
Proof.
  intros U W R T.
  unfold connectWebSocket, ws_is_open. rewrite U, W, R. simpl. rewrite T.
  simpl. rewrite update_length. repeat split.
  unfold readyState_of in *. simpl.
  destruct (nth_error (sockets (env s)) i) as [w|] eqn:N; [|discriminate].
  rewrite nth_error_app1.
  - rewrite update_nth_error_same, N. simpl in *.
    unfold close_socket. injection R as ->. reflexivity.
  - rewrite update_length. apply nth_error_Some. congruence.
Qed.

End DetailLifecycle.

(** ** Calling connect on a live channel *)

Section Connect.
Import Browser.

Variable throws : string -> bool.

(** C4, as the code has it.  In both views [connectWebSocket] returns at
    once, leaving the state as it is, when the current channel is Open.  When
    the current channel is still Connecting it calls [close] on it, which
    leaves it Closing, constructs one new socket and makes that one the
    current channel. *)
Theorem connect_on_live_channel
  (st : CoinMarketTable.State) (i : nat)
  (r : CurrencyDetailPage.Revision) (sd : CurrencyDetailPage.State r)
  (j : nat) :
  CoinMarketTable.isUnmounting st = false ->
  CoinMarketTable.wsRef st = Some i ->
  throws CoinMarketTable.endpoint = false ->
  CurrencyDetailPage.isUnmounting sd = false ->
  CurrencyDetailPage.wsRef sd = Some j ->
  throws (CurrencyDetailPage.endpoint (CurrencyDetailPage.symbol sd)) = false ->
  (readyState_of i (CoinMarketTable.env st) = Some OPEN ->
   CoinMarketTable.connectWebSocket throws st = st)
  /\ (readyState_of i (CoinMarketTable.env st) = Some CONNECTING ->
      let st' := CoinMarketTable.connectWebSocket throws st in
      sockets (CoinMarketTable.env st')
      = update i close_socket (sockets (CoinMarketTable.env st))
        ++ [mkWebSocket CoinMarketTable.endpoint CONNECTING []]
      /\ readyState_of i (CoinMarketTable.env st') = Some CLOSING
      /\ CoinMarketTable.wsRef st'
         = Some (List.length (sockets (CoinMarketTable.env st))))
  /\ (readyState_of j (CurrencyDetailPage.env sd) = Some OPEN ->
      CurrencyDetailPage.connectWebSocket r throws sd = sd)
  /\ (readyState_of j (CurrencyDetailPage.env sd) = Some CONNECTING ->
      let sd' := CurrencyDetailPage.connectWebSocket r throws sd in
      sockets (CurrencyDetailPage.env sd')
      = update j close_socket (sockets (CurrencyDetailPage.env sd))
        ++ [mkWebSocket
              (CurrencyDetailPage.endpoint (CurrencyDetailPage.symbol sd))
              CONNECTING []]
      /\ readyState_of j (CurrencyDetailPage.env sd') = Some CLOSING
      /\ CurrencyDetailPage.wsRef sd'
         = Some (List.length (sockets (CurrencyDetailPage.env sd)))).
Proof.
  intros Ut Wt Tt Ud Wd Td. repeat apply conj.
  - intros R. apply table_connect_noop. right.
    unfold CoinMarketTable.ws_is_open. now rewrite Wt, R.
  - intros R. now apply table_connect_replaces_connecting.
  - intros R. apply detail_connect_noop. right.
    unfold CurrencyDetailPage.ws_is_open. now rewrite Wd, R.
  - intros R. now apply detail_connect_replaces_connecting.
Qed.

End Connect.

Section ConnectExamples.
Import Browser Samples.

(** C4 fails while the channel is Connecting: a second call right after the
    first closes the socket the first call made and constructs another. *)
Lemma second_connect_replaces_connecting_socket :
  CoinMarketTable.wsRef mountedTable = Some 0
  /\ sockets (CoinMarketTable.env mountedTable)
     = [mkWebSocket CoinMarketTable.endpoint CONNECTING []]
  /\ sockets (CoinMarketTable.env
                (CoinMarketTable.connectWebSocket never_throws mountedTable))
     = [mkWebSocket CoinMarketTable.endpoint CLOSING [];
        mkWebSocket CoinMarketTable.endpoint CONNECTING []]
  /\ CoinMarketTable.connectWebSocket never_throws mountedTable
     <> mountedTable.
Proof.
  repeat split; try reflexivity.
  intros E. apply (f_equal CoinMarketTable.wsRef) in E. discriminate E.
Qed.

Lemma connect_on_live_channel_witness :
  CoinMarketTable.connectWebSocket never_throws liveTable = liveTable
  /\ CoinMarketTable.wsRef
       (CoinMarketTable.connectWebSocket never_throws mountedTable) = Some 1
  /\ CurrencyDetailPage.wsRef
       (CurrencyDetailPage.connectWebSocket CurrencyDetailPage.Overview
          never_throws holding) = Some 1.
Proof.
  pose proof (connect_on_live_channel never_throws liveTable 0
                CurrencyDetailPage.Overview holding 0
                eq_refl eq_refl eq_refl eq_refl eq_refl eq_refl)
    as [Open _].
  pose proof (connect_on_live_channel never_throws mountedTable 0
                CurrencyDetailPage.Overview holding 0
                eq_refl eq_refl eq_refl eq_refl eq_refl eq_refl)
    as [_ [Tc [_ Dc]]].
  split; [exact (Open eq_refl)|].
  split; [exact (proj2 (proj2 (Tc eq_refl))) | exact (proj2 (proj2 (Dc eq_refl)))].
Defined.

End ConnectExamples.

(** ** The error event *)

Section ErrorEvent.
Import Browser.

(** C9, as the code has it.  In both views the error handler of a mounted
    component stores the error text and also sets [isConnected] to false; it
    touches neither the channel reference, nor the timer reference, nor the
    browser (no socket is closed or constructed, no timeout is set), nor the
    feed data. *)
Theorem error_event_effect
  (st : CoinMarketTable.State)
  (r : CurrencyDetailPage.Revision) (sd : CurrencyDetailPage.State r) :
  CoinMarketTable.isUnmounting st = false ->
  CurrencyDetailPage.isUnmounting sd = false ->
  let st' := CoinMarketTable.onerror st in
  let sd' := CurrencyDetailPage.onerror r sd in
  (CoinMarketTable.error st' = Some "WebSocket error occurred"
   /\ CoinMarketTable.isConnected st' = false
   /\ CoinMarketTable.env st' = CoinMarketTable.env st
   /\ CoinMarketTable.wsRef st' = CoinMarketTable.wsRef st
   /\ CoinMarketTable.reconnectTimeoutRef st'
      = CoinMarketTable.reconnectTimeoutRef st
   /\ CoinMarketTable.paginatedData st' = CoinMarketTable.paginatedData st)
  /\ (CurrencyDetailPage.error sd' = Some (CurrencyDetailPage.errorText r)
      /\ CurrencyDetailPage.isConnected sd' = false
      /\ CurrencyDetailPage.env sd' = CurrencyDetailPage.env sd
      /\ CurrencyDetailPage.wsRef sd' = CurrencyDetailPage.wsRef sd
      /\ CurrencyDetailPage.reconnectTimeoutRef sd'
         = CurrencyDetailPage.reconnectTimeoutRef sd
      /\ CurrencyDetailPage.data sd' = CurrencyDetailPage.data sd).
Proof.
  intros Ut Ud st' sd'. subst st' sd'.
  unfold CoinMarketTable.onerror, CurrencyDetailPage.onerror.
  rewrite Ut, Ud. simpl. repeat split.
Qed.

End ErrorEvent.

Section ErrorEventExamples.
Import Browser Samples.

(** C9 fails on the connection flag: an error event on an open channel
    turns [isConnected] from true to false before any close event. *)
Lemma error_event_disconnects :
  CoinMarketTable.isConnected liveTable = true
  /\ readyState_of 0 (CoinMarketTable.env liveTable) = Some OPEN
  /\ CoinMarketTable.isConnected
       (CoinMarketTable.step never_throws liveTable (CoinMarketTable.Error 0))
     = false.
Proof. repeat split. Qed.

Lemma error_event_effect_witness :
  CoinMarketTable.isUnmounting liveTable = false
  /\ CoinMarketTable.isConnected (CoinMarketTable.onerror liveTable) = false
  /\ CurrencyDetailPage.error
       (CurrencyDetailPage.onerror CurrencyDetailPage.Overview holding)
     = Some "WebSocket error occurred".
Proof.
  pose proof (error_event_effect liveTable CurrencyDetailPage.Overview holding
                eq_refl eq_refl) as H.
  cbv zeta in H. destruct H as [[_ [C _]] [E _]].
  split; [reflexivity|]. split; [exact C | exact E].
Defined.

End ErrorEventExamples.

(** ** The default symbol of the detail view *)

Section DefaultSymbol.
Import Browser CurrencyDetailPage.

(** C10. With no [symbol] route parameter the detail view (either revision)
    uses BTCUSDT, and the socket its effect constructs on mount is aimed at
    ws://127.0.0.1:8080/currency/BTCUSDT. *)
Theorem default_symbol_endpoint
  (r : Revision) (throws : string -> bool) (v : VisibilityState) :
  throws "ws://127.0.0.1:8080/currency/BTCUSDT" = false ->
  resolveSymbol None = "BTCUSDT"
  /\ symbol (initial r None v) = "BTCUSDT"
  /\ endpoint (symbol (initial r None v))
     = "ws://127.0.0.1:8080/currency/BTCUSDT"
  /\ sockets (env (useEffect_setup r throws (initial r None v)))
     = [mkWebSocket "ws://127.0.0.1:8080/currency/BTCUSDT" CONNECTING []]
  /\ wsRef (useEffect_setup r throws (initial r None v)) = Some 0.
Proof.
  intros T. repeat split.
  - unfold useEffect_setup, connectWebSocket. simpl.
    change (endpoint "BTCUSDT") with "ws://127.0.0.1:8080/currency/BTCUSDT".
    rewrite T. reflexivity.
  - unfold useEffect_setup, connectWebSocket. simpl.
    change (endpoint "BTCUSDT") with "ws://127.0.0.1:8080/currency/BTCUSDT".
    rewrite T. reflexivity.
Qed.

Lemma default_symbol_endpoint_witness :
  Samples.never_throws "ws://127.0.0.1:8080/currency/BTCUSDT" = false
  /\ sockets (env (useEffect_setup PriceChart Samples.never_throws
                     (initial PriceChart None visible)))
     = [mkWebSocket "ws://127.0.0.1:8080/currency/BTCUSDT" CONNECTING []].
Proof.
  split; [reflexivity|].
  exact (proj1 (proj2 (proj2 (proj2
           (default_symbol_endpoint PriceChart Samples.never_throws visible
              eq_refl))))).
Defined.

End DefaultSymbol.


(** ** Retry timers *)

Section RetryTimers.
Import Browser CoinMarketTable.

Variable throws : string -> bool.

Lemma step_fixed_delay (s : State) (ev : Event) :
  fixed_delay (env s) -> fixed_delay (env (step throws s ev)).
Proof.
  unfold fixed_delay. intros F.
  destruct ev; open_table; open_browser; split_cases; simpl;
    auto using filter_delay.
  all: try (apply Forall_app; split; [auto using filter_delay|];
            repeat constructor).
Qed.

Lemma run_fixed_delay (evs : list Event) (s : State) :
  fixed_delay (env s) -> fixed_delay (env (run throws s evs)).
Proof.
  unfold run. revert s.
  induction evs as [|ev evs IH]; intros s F; simpl; auto.
  apply IH. now apply step_fixed_delay.
Qed.

Lemma setup_fixed_delay (v : VisibilityState) :
  fixed_delay (env (useEffect_setup throws (initial v))).
Proof.
  unfold fixed_delay. open_table. simpl.
  destruct (throws endpoint); simpl; constructor.
Qed.

End RetryTimers.

Section RetryPolicy.
Import Browser.

(** C6, as the code has it.  In both views an unclean close of a mounted
    component in a tab that is not hidden sets exactly one timeout, of
    5000 ms, and stores its handle over the one stored before; the timeouts
    that were pending stay pending (none is cancelled).  In every state the
    table reaches, every pending timeout has the delay 5000 ms. *)
Theorem unclean_close_schedules_retry
  (throws : string -> bool)
  (st : CoinMarketTable.State)
  (r : CurrencyDetailPage.Revision) (sd : CurrencyDetailPage.State r)
  (v : VisibilityState) (evs : list CoinMarketTable.Event) :
  CoinMarketTable.isUnmounting st = false ->
  is_hidden (CoinMarketTable.env st) = false ->
  CurrencyDetailPage.isUnmounting sd = false ->
  is_hidden (CurrencyDetailPage.env sd) = false ->
  let st' := CoinMarketTable.onclose false st in
  let sd' := CurrencyDetailPage.onclose r false sd in
  timers (CoinMarketTable.env st')
  = timers (CoinMarketTable.env st)
    ++ [(nextTimer (CoinMarketTable.env st), 5000%Z)]
  /\ CoinMarketTable.reconnectTimeoutRef st'
     = Some (nextTimer (CoinMarketTable.env st))
  /\ timers (CurrencyDetailPage.env sd')
     = timers (CurrencyDetailPage.env sd)
       ++ [(nextTimer (CurrencyDetailPage.env sd), 5000%Z)]
  /\ CurrencyDetailPage.reconnectTimeoutRef sd'
     = Some (nextTimer (CurrencyDetailPage.env sd))
  /\ fixed_delay
       (CoinMarketTable.env
          (CoinMarketTable.run throws
             (CoinMarketTable.useEffect_setup throws
                (CoinMarketTable.initial v)) evs)).
Proof.
  intros Ut Vt Ud Vd st' sd'. subst st' sd'.
  unfold CoinMarketTable.onclose, CurrencyDetailPage.onclose.
  rewrite Ut, Ud. simpl. rewrite Ut, Vt, Vd. simpl.
  repeat split.
  apply run_fixed_delay, setup_fixed_delay.
Qed.

End RetryPolicy.

Section RetryTimersExamples.
Import Browser Samples.

(** C6 fails on stacking: after two failed connections, the second made on
    a visibility change before the first retry was due, two timeouts are
    pending and the first was not cancelled. *)
Lemma retry_timers_stack :
  timers (CoinMarketTable.env
            (CoinMarketTable.run never_throws mountedTable twoFailures))
  = [(0, 5000%Z); (1, 5000%Z)]
  /\ CoinMarketTable.reconnectTimeoutRef
       (CoinMarketTable.run never_throws mountedTable twoFailures) = Some 1
  /\ ~ (List.length
          (timers (CoinMarketTable.env
                     (CoinMarketTable.run never_throws mountedTable
                        twoFailures))) <= 1).
Proof. repeat split. simpl. lia. Qed.

Lemma unclean_close_schedules_retry_witness :
  CoinMarketTable.isUnmounting mountedTable = false
  /\ is_hidden (CoinMarketTable.env mountedTable) = false
  /\ timers (CoinMarketTable.env (CoinMarketTable.onclose false mountedTable))
     = [(0, 5000%Z)]
  /\ timers (CurrencyDetailPage.env
               (CurrencyDetailPage.onclose CurrencyDetailPage.Overview false
                  holding))
     = [(0, 5000%Z)].
Proof.
  pose proof (unclean_close_schedules_retry never_throws mountedTable
                CurrencyDetailPage.Overview holding visible []
                eq_refl eq_refl eq_refl eq_refl) as H.
  cbv zeta in H. destruct H as [T [_ [D _]]].
  split; [reflexivity|]. split; [reflexivity|].
  split; [exact T | exact D].
Defined.

End RetryTimersExamples.

(** ** Teardown *)

Section Teardown.
Import Browser CoinMarketTable.

Variable throws : string -> bool.

Lemma no_activity_refl (s : State) : no_activity s s.
Proof. unfold no_activity. repeat split. apply incl_refl. Qed.

Lemma no_activity_trans (a b c : State) :
  no_activity a b -> no_activity b c -> no_activity a c.
Proof.
  unfold no_activity.
  intros (L1 & S1 & N1 & I1 & P1 & C1 & E1) (L2 & S2 & N2 & I2 & P2 & C2 & E2).
  repeat split; try congruence.
  eapply incl_tran; eassumption.
Qed.

(** The cleanup function sets the flag, releases the channel and cancels
    the timeout whose handle is stored. *)
Lemma cleanup_torn_down (s : State) :
  torn_down (useEffect_cleanup s) /\ no_activity s (useEffect_cleanup s).
Proof.
  unfold torn_down, no_activity. open_table. open_browser.
  split_cases; simpl;
    rewrite ?update_length, ?(update_sent _ _ _ close_socket_sent);
    repeat split; auto using incl_refl, incl_filter.
Qed.


(** Once teardown has begun no event makes the component act. *)
Lemma step_torn_down (s : State) (ev : Event) :
  torn_down s ->
  torn_down (step throws s ev) /\ no_activity s (step throws s ev).
Proof.
  unfold torn_down, no_activity. intros [U W].
  destruct ev; open_table; open_browser; rewrite ?U, ?W; simpl;
    rewrite ?U, ?W; simpl; split_cases; simpl;
    rewrite ?update_length;
    repeat split; auto using incl_refl, incl_filter.
  all: apply update_sent; auto using close_socket_sent.
Qed.

Lemma run_torn_down (evs : list Event) (s : State) :
  torn_down s ->
  torn_down (run throws s evs) /\ no_activity s (run throws s evs).
Proof.
  unfold run. revert s.
  induction evs as [|ev evs IH]; intros s T; simpl.
  - split; [assumption | apply no_activity_refl].
  - destruct (step_torn_down s ev T) as [T1 A1].
    destruct (IH _ T1) as [T2 A2].
    split; [assumption | eapply no_activity_trans; eassumption].
Qed.


(** The binding of [paginatedData] that the callbacks of the effect read is
    the one captured at mount, whatever happens afterwards. *)
Lemma step_effect_binding (s : State) (ev : Event) :
  effect_paginatedData (step throws s ev) = effect_paginatedData s.
Proof.
  destruct ev; open_table; split_cases; reflexivity.
Qed.

Lemma run_effect_binding (evs : list Event) (s : State) :
  effect_paginatedData (run throws s evs) = effect_paginatedData s.
Proof.
  unfold run. revert s.
  induction evs as [|ev evs IH]; intros s; simpl; auto.
  now rewrite IH, step_effect_binding.
Qed.






End Teardown.

Section TeardownExamples.
Import Browser CoinMarketTable Samples Scenarios.





End TeardownExamples.

(** ** The request sent when a channel opens *)

Section OpenRequest.
Import Browser CoinMarketTable.

Variable throws : string -> bool.

(** In every state the table reaches, the page and page size that [onopen]
    reads are those of the first render. *)
Lemma reachable_effect_binding (v : VisibilityState) (evs : list Event) :
  effect_paginatedData
    (run throws (useEffect_setup throws (initial v)) evs)
  = initialPaginatedData.
Proof.
  rewrite run_effect_binding.
  open_table. simpl. split_cases; reflexivity.
Qed.

(** The open event of a mounted table sends one frame on the socket that
    opened, built from that binding. *)
Lemma open_sends_one_frame (s : State) (ws : nat) (w : WebSocket) :
  isUnmounting s = false ->
  nth_error (sockets (env s)) ws = Some w ->
  readyState w = CONNECTING ->
  nth_error (sockets (env (step throws s (Open ws)))) ws
  = Some (mkWebSocket (url w) OPEN
            (sent w
             ++ [PageRequest.mk
                   (PaginatedResponse.page (effect_paginatedData s))
                   (PaginatedResponse.per_page (effect_paginatedData s))])).
Proof.
  intros U N R. unfold step, readyState_of. rewrite N. simpl. rewrite R.
  unfold onopen. simpl. rewrite U. simpl.
  rewrite !update_nth_error_same, N. reflexivity.
Qed.

End OpenRequest.

Section OpenRequestExamples.
Import Browser CoinMarketTable Samples.

(** C5 on a run of the table.  The user asks for page 3 on the first
    socket and the server answers with page 3; the connection then drops and
    the retry opens a second socket.  The one frame sent on the second
    socket asks for page 1, while the page last asked for, and shown, is 3. *)
Theorem reopen_requests_first_page :
  map sent
    (sockets (env (run never_throws mountedTable reopenOnThirdPage)))
  = [[PageRequest.mk 1 30; PageRequest.mk 3 30]; [PageRequest.mk 1 30]]
  /\ map readyState
       (sockets (env (run never_throws mountedTable reopenOnThirdPage)))
     = [CLOSED; OPEN]
  /\ PaginatedResponse.page
       (paginatedData (run never_throws mountedTable reopenOnThirdPage))
     = 3%Z.
Proof. repeat split. Qed.

End OpenRequestExamples.

(** ** What a sequence of frames leaves in the view *)

Section FrameSequences.
Import Browser.

Lemma last_default_irrelevant {A : Type} (l : list A) (d d' : A) :
  l <> [] -> last l d = last l d'.
Proof.
  induction l as [|x l IH]; [congruence|]. intros _.
  destruct l as [|y l]; [reflexivity|].
  change (last (y :: l) d = last (y :: l) d'). apply IH. discriminate.
Qed.

Lemma last_cons {A : Type} (x : A) (l : list A) (d : A) :
  last (x :: l) d = last l x.
Proof.
  destruct l as [|y l]; [reflexivity|].
  change (last (y :: l) d = last (y :: l) x).
  apply last_default_irrelevant. discriminate.
Qed.

(** X1. While the table is mounted, a sequence of inbound frames leaves the
    page state of the last frame that decoded, or the page state it had if
    none decoded; frames that fail to decode change nothing, and no frame
    touches the connection flag, the error text, the channel or the
    browser. *)
Theorem table_state_is_last_decoded
  (frames : list (option PaginatedResponse.t)) (s : CoinMarketTable.State) :
  CoinMarketTable.isUnmounting s = false ->
  let s' := CoinMarketTable.receive s frames in
  CoinMarketTable.paginatedData s'
  = last (Feed.decoded frames) (CoinMarketTable.paginatedData s)
  /\ CoinMarketTable.isConnected s' = CoinMarketTable.isConnected s
  /\ CoinMarketTable.error s' = CoinMarketTable.error s
  /\ CoinMarketTable.wsRef s' = CoinMarketTable.wsRef s
  /\ CoinMarketTable.env s' = CoinMarketTable.env s.
Proof.
  unfold CoinMarketTable.receive. revert s.
  induction frames as [|f frames IH]; intros s U.
  - repeat split.
  - cbn [fold_left].
    assert (U' : CoinMarketTable.isUnmounting (CoinMarketTable.onmessage f s)
                 = false).
    { unfold CoinMarketTable.onmessage. rewrite U. now destruct f. }
    destruct (IH _ U') as (P & C & E & W & V). cbv zeta.
    rewrite P, C, E, W, V.
    unfold CoinMarketTable.onmessage. rewrite U.
    destruct f as [p|]; [|repeat split].
    change (Feed.decoded (Some p :: frames)) with (p :: Feed.decoded frames).
    rewrite last_cons. repeat split.
Qed.

(** X2. The PriceChart view is mounted and every inbound frame either
    fails to parse or decodes, as the handler's annotation has it, to an
    array of candles whose [event_time] is a date.  Then the sequence leaves
    the last decoded batch that was not empty, sorted and processed, or the
    series the view had if there was none: frames that fail to parse and
    empty batches change nothing. *)
Theorem chart_series_is_last_batch
  (Date_getTime : string -> option Z) (toLocaleTimeString : string -> string)
  (frames : list (option (list SymbolData.t)))
  (s : CurrencyDetailPage.State CurrencyDetailPage.PriceChart) :
  CurrencyDetailPage.isUnmounting s = false ->
  forallb (fun batch => forallb (CurrencyDetailPage.is_dated Date_getTime)
                                batch)
          (Feed.decoded frames) = true ->
  CurrencyDetailPage.data
    (CurrencyDetailEvents.receive CurrencyDetailPage.PriceChart
       Date_getTime toLocaleTimeString s frames)
  = last
      (map (fun batch =>
              map (CurrencyDetailPage.process toLocaleTimeString)
                  (CurrencyDetailPage.sort Date_getTime batch))
           (filter Feed.nonempty (Feed.decoded frames)))
      (CurrencyDetailPage.data s).
Proof.
  unfold CurrencyDetailEvents.receive. revert s.
  induction frames as [|f frames IH]; intros s U D; [reflexivity|].
  simpl fold_left.
  assert (U' : CurrencyDetailPage.isUnmounting
                 (CurrencyDetailPage.onmessage CurrencyDetailPage.PriceChart
                    Date_getTime toLocaleTimeString f s) = false).
  { unfold CurrencyDetailPage.onmessage. rewrite U.
    destruct f as [[|c b]|]; exact U. }
  assert (D' : forallb (fun batch =>
                          forallb (CurrencyDetailPage.is_dated Date_getTime)
                                  batch)
                       (Feed.decoded frames) = true).
  { destruct f as [b|]; [|exact D].
    change (Feed.decoded (Some b :: frames)) with (b :: Feed.decoded frames)
      in D.
    cbn [forallb] in D. now apply andb_true_iff in D as [_ D]. }
  rewrite (IH _ U' D').
  unfold CurrencyDetailPage.onmessage. rewrite U.
  destruct f as [[|c b]|]; try reflexivity.
  change (Feed.decoded (Some (c :: b) :: frames))
    with ((c :: b) :: Feed.decoded frames).
  cbn [filter Feed.nonempty map]. rewrite last_cons. reflexivity.
Qed.

End FrameSequences.

(** ** One live channel *)

Section SocketFacts.
Import Browser Channels.

Lemma update_nth_error_other (i j : nat) (f : WebSocket -> WebSocket)
  (l : list WebSocket) :
  i <> j -> nth_error (update i f l) j = nth_error l j.
Proof.
  revert i j; induction l as [|w l IH]; intros [|i] [|j] N; simpl; auto.
  congruence.
Qed.

Lemma live_update_other (i j : nat) (f : WebSocket -> WebSocket) (e : Env) :
  j <> i ->
  is_live_at i (set_sockets (update j f (sockets e)) e) = is_live_at i e.
Proof.
  intros N. unfold is_live_at, readyState_of. simpl.
  now rewrite update_nth_error_other.
Qed.

Lemma live_update_kept (i j : nat) (f : WebSocket -> WebSocket) (e : Env) :
  (forall w, readyState (f w) = readyState w) ->
  is_live_at i (set_sockets (update j f (sockets e)) e) = is_live_at i e.
Proof.
  intros K. destruct (Nat.eq_dec j i) as [->|N];
    [|now apply live_update_other].
  unfold is_live_at, readyState_of. simpl. rewrite update_nth_error_same.
  destruct (nth_error (sockets e) i) as [w|]; simpl; [now rewrite K | auto].
Qed.

Lemma live_update_down (i j : nat) (f : WebSocket -> WebSocket) (e : Env) :
  (forall w, readyState (f w) = CLOSING \/ readyState (f w) = CLOSED
             \/ readyState (f w) = readyState w) ->
  is_live_at i (set_sockets (update j f (sockets e)) e) = true ->
  is_live_at i e = true.
Proof.
  intros D. destruct (Nat.eq_dec j i) as [->|N];
    [|now rewrite live_update_other].
  unfold is_live_at, readyState_of. simpl. rewrite update_nth_error_same.
  destruct (nth_error (sockets e) i) as [w|]; simpl; auto.
  destruct (D w) as [E|[E|E]]; rewrite E; auto; discriminate.
Qed.

Lemma close_socket_down (w : WebSocket) :
  readyState (close_socket w) = CLOSING
  \/ readyState (close_socket w) = CLOSED
  \/ readyState (close_socket w) = readyState w.
Proof.
  unfold close_socket. destruct (readyState w) eqn:R; simpl; rewrite ?R; auto.
Qed.

Lemma live_after_close (i : nat) (e : Env) :
  is_live_at i (close i e) = false.
Proof.
  unfold is_live_at, readyState_of, close. simpl.
  rewrite update_nth_error_same.
  destruct (nth_error (sockets e) i) as [w|]; simpl; auto.
  unfold close_socket.
  destruct (readyState w) eqn:R; simpl; rewrite ?R; reflexivity.
Qed.

Lemma send_socket_readyState (m : PageRequest.t) (w : WebSocket) :
  readyState (send_socket m w) = readyState w.
Proof. unfold send_socket. destruct (readyState w) eqn:R; simpl; auto. Qed.

Lemma live_construct (i : nat) (u : string) (e : Env) :
  is_live_at i (snd (construct u e)) = true ->
  is_live_at i e = true \/ i = List.length (sockets e).
Proof.
  unfold is_live_at, readyState_of, construct. simpl.
  destruct (Nat.lt_ge_cases i (List.length (sockets e))) as [L|G].
  - rewrite nth_error_app1 by assumption. auto.
  - destruct (Nat.eq_dec i (List.length (sockets e))) as [E|N]; auto.
    rewrite nth_error_app2 by assumption.
    destruct (i - List.length (sockets e)) as [|k] eqn:K; [lia|].
    simpl. destruct k; discriminate.
Qed.

End SocketFacts.

Section TableSingleChannel.
Import Browser Channels CoinMarketTable TableChannels.

Variable throws : string -> bool.

Lemma connect_single_channel (s : State) :
  single_channel s -> single_channel (connectWebSocket throws s).
Proof.
  intros I. unfold connectWebSocket.
  destruct (isUnmounting s || ws_is_open s) eqn:G; [assumption|].
  set (s1 := match wsRef s with
             | Some i => set_wsRef None (set_env (close i (env s)) s)
             | None => s
             end).
  assert (R : wsRef s1 = None /\ forall i, is_live_at i (env s1) = false).
  { unfold s1. destruct (wsRef s) as [c|] eqn:W; simpl.
    - split; [reflexivity|]. intros i.
      destruct (Nat.eq_dec c i) as [->|N]; [apply live_after_close|].
      unfold close. rewrite live_update_other by assumption.
      destruct (is_live_at i (env s)) eqn:L; auto.
      apply I in L. congruence.
    - split; [assumption|]. intros i.
      destruct (is_live_at i (env s)) eqn:L; auto.
      apply I in L. congruence. }
  destruct R as [W1 L1].
  destruct (throws endpoint).
  - destruct (negb (isUnmounting s1)); intros i L; simpl in L;
      rewrite L1 in L; discriminate.
  - intros i L. simpl in L. simpl.
    apply (live_construct i endpoint (env s1)) in L.
    destruct L as [L| ->]; [rewrite L1 in L; discriminate | reflexivity].
Qed.

Lemma live_same_sockets (i : nat) (e e' : Env) :
  sockets e' = sockets e -> is_live_at i e' = is_live_at i e.
Proof. intros E. unfold is_live_at, readyState_of. now rewrite E. Qed.

Lemma cleanup_releases (s : State) :
  single_channel s ->
  forall i, is_live_at i (env (useEffect_cleanup s)) = false.
Proof.
  intros I i. unfold useEffect_cleanup.
  set (s2 := match reconnectTimeoutRef _ with Some h => _ | None => _ end).
  assert (S2 : sockets (env s2) = sockets (env s))
    by (unfold s2; simpl; now destruct (reconnectTimeoutRef s)).
  assert (W2 : wsRef s2 = wsRef s)
    by (unfold s2; simpl; now destruct (reconnectTimeoutRef s)).
  assert (L2 : is_live_at i (env s2) = true -> wsRef s2 = Some i).
  { rewrite (live_same_sockets i _ _ S2), W2. apply I. }
  destruct (wsRef s2) as [c|] eqn:W; simpl.
  - destruct (Nat.eq_dec c i) as [->|N]; [apply live_after_close|].
    unfold close. rewrite live_update_other by assumption.
    destruct (is_live_at i (env s2)); auto.
    specialize (L2 eq_refl). congruence.
  - destruct (is_live_at i (env s2)); auto.
    specialize (L2 eq_refl). discriminate.
Qed.

Lemma step_single_channel (s : State) (ev : Event) :
  single_channel s -> single_channel (step throws s ev).
Proof.
  intros I. destruct ev as [ws|ws parsed|ws|ws c|h|v|p|]; simpl.
  - (* open *)
    destruct (readyState_of ws (env s)) as [[]|] eqn:R; try assumption.
    assert (C : wsRef s = Some ws)
      by (apply I; unfold is_live_at; now rewrite R).
    intros i L.
    assert (W : wsRef (onopen ws (set_socket_state ws OPEN s)) = wsRef s)
      by (unfold onopen; simpl; now destruct (isUnmounting s)).
    rewrite W. destruct (Nat.eq_dec ws i) as [<-|N]; [assumption|].
    apply I. revert L. unfold onopen. simpl.
    destruct (isUnmounting s); simpl; unfold send;
      rewrite ?live_update_other by assumption; simpl;
      rewrite ?live_update_other by assumption; auto.
  - (* message *)
    destruct (readyState_of ws (env s)) as [[]|]; try assumption;
      unfold onmessage; destruct (isUnmounting s); simpl; try assumption;
      destruct parsed; assumption.
  - (* error *)
    destruct (readyState_of ws (env s)) as [[]|]; try assumption;
      unfold onerror; destruct (isUnmounting s); simpl; assumption.
  - (* close *)
    assert (D : forall i,
               is_live_at i (env (set_socket_state ws CLOSED s)) = true ->
               wsRef s = Some i).
    { intros i L. apply I. revert L. apply live_update_down.
      intros w. simpl. auto. }
    destruct (readyState_of ws (env s)) as [[]|]; try assumption;
      unfold onclose; simpl; destruct (isUnmounting s); simpl;
      try exact D;
      match goal with
      | |- context [if ?b then _ else _] => destruct b
      end; exact D.
  - (* timeout *)
    destruct (pending h (env s)); [|assumption].
    apply connect_single_channel. exact I.
  - (* visibility *)
    destruct (listening s); [|exact I].
    unfold handleVisibilityChange. simpl.
    destruct (is_visible _); [|exact I].
    apply connect_single_channel. exact I.
  - (* page change *)
    unfold handlePageChange. destruct (ws_is_open s); [|assumption].
    destruct (wsRef s) as [c|] eqn:W; [|assumption].
    intros i L. simpl. rewrite W. rewrite <- W. apply I. revert L.
    simpl. unfold send. rewrite live_update_kept; auto.
    apply send_socket_readyState.
  - (* unmount *)
    intros i L. now rewrite (cleanup_releases s I i) in L.
Qed.

Lemma setup_single_channel (v : VisibilityState) :
  single_channel (useEffect_setup throws (initial v)).
Proof.
  apply connect_single_channel. intros i L.
  unfold is_live_at, readyState_of in L. simpl in L.
  destruct i; discriminate.
Qed.

Lemma run_single_channel (evs : list Event) (s : State) :
  single_channel s -> single_channel (run throws s evs).
Proof.
  unfold run. revert s.
  induction evs as [|ev evs IH]; intros s I; simpl; auto.
  apply IH. now apply step_single_channel.
Qed.

End TableSingleChannel.

Section TableBadge.
Import Browser Channels CoinMarketTable TableChannels.

Variable throws : string -> bool.

Lemma connect_badge (s : State) :
  live_badge_sound s -> live_badge_sound (connectWebSocket throws s).
Proof.
  intros J. unfold connectWebSocket.
  destruct (isUnmounting s || ws_is_open s) eqn:G; [assumption|].
  apply orb_false_iff in G as [U O].
  assert (C : isConnected s = false).
  { destruct (isConnected s) eqn:C; auto.
    rewrite (J U C) in O. discriminate. }
  unfold live_badge_sound.
  destruct (wsRef s); simpl; destruct (throws endpoint); simpl;
    rewrite ?U; simpl; intros _ C'; congruence.
Qed.

Lemma step_badge (s : State) (ev : Event) :
  single_channel s -> live_badge_sound s ->
  live_badge_sound (step throws s ev).
Proof.
  intros I J. destruct ev as [ws|ws parsed|ws|ws c|h|v|p|]; simpl.
  - (* open *)
    destruct (readyState_of ws (env s)) as [[]|] eqn:R; try assumption.
    assert (C : wsRef s = Some ws)
      by (apply I; unfold is_live_at; now rewrite R).
    unfold live_badge_sound, onopen. simpl.
    destruct (isUnmounting s) eqn:U; simpl;
      [intros U'; simpl in U'; congruence|]. intros _ _.
    unfold ws_is_open. simpl. rewrite C.
    unfold readyState_of in *. simpl.
    rewrite !update_nth_error_same.
    destruct (nth_error (sockets (env s)) ws); [reflexivity|discriminate].
  - (* message *)
    destruct (readyState_of ws (env s)) as [[]|]; try assumption;
      unfold onmessage; destruct (isUnmounting s) eqn:U; simpl;
      try assumption; destruct parsed; try assumption;
      intros U' C'; exact (J U C').
  - (* error *)
    destruct (readyState_of ws (env s)) as [[]|]; try assumption;
      unfold onerror; destruct (isUnmounting s) eqn:U; simpl;
      try assumption; intros _ C'; discriminate C'.
  - (* close *)
    destruct (readyState_of ws (env s)) as [[]|]; try assumption;
      unfold onclose; simpl; destruct (isUnmounting s) eqn:U; simpl;
      try (intros U'; simpl in U'; congruence);
      match goal with
      | |- context [if ?b then _ else _] => destruct b
      end; intros _ C'; discriminate C'.
  - (* timeout *)
    destruct (pending h (env s)); [|assumption].
    apply connect_badge. exact J.
  - (* visibility *)
    destruct (listening s); [|exact J].
    unfold handleVisibilityChange. simpl.
    destruct (is_visible _); [|exact J].
    apply connect_badge. exact J.
  - (* page change *)
    unfold handlePageChange. destruct (ws_is_open s) eqn:O; [|assumption].
    unfold ws_is_open in O.
    destruct (wsRef s) as [c|] eqn:W; [|assumption].
    intros _ _. unfold ws_is_open. simpl. rewrite W.
    unfold readyState_of in *. simpl. rewrite update_nth_error_same.
    destruct (nth_error (sockets (env s)) c) as [w|]; [|discriminate].
    simpl in *. rewrite send_socket_readyState.
    exact O.
  - (* unmount *)
    unfold live_badge_sound, useEffect_cleanup. simpl.
    destruct (reconnectTimeoutRef s); simpl; destruct (wsRef s); simpl;
      discriminate.
Qed.

Lemma run_badge (evs : list Event) (s : State) :
  single_channel s -> live_badge_sound s ->
  single_channel (run throws s evs) /\ live_badge_sound (run throws s evs).
Proof.
  unfold run. revert s.
  induction evs as [|ev evs IH]; intros s I J; simpl; auto.
  apply IH; [now apply step_single_channel | now apply step_badge].
Qed.

Lemma setup_badge (v : VisibilityState) :
  live_badge_sound (useEffect_setup throws (initial v)).
Proof. apply connect_badge. intros _ C. discriminate C. Qed.

(** X3. In every state the table reaches from its mount, at most one socket
    is connecting or open, and it is the one the channel reference holds. *)
Theorem table_single_live_channel
  (v : VisibilityState) (evs : list Event) (i j : nat) :
  let s := run throws (useEffect_setup throws (initial v)) evs in
  is_live_at i (env s) = true ->
  is_live_at j (env s) = true ->
  i = j /\ wsRef s = Some i.
Proof.
  intros s Li Lj.
  pose proof (run_single_channel throws evs _ (setup_single_channel throws v))
    as I.
  fold s in I. pose proof (I i Li) as Wi. pose proof (I j Lj) as Wj.
  split; [congruence | assumption].
Qed.

(** X4. In every state the table reaches from its mount, while it is
    mounted the connection flag (the Live badge) is set only when the
    current channel is open. *)
Theorem live_badge_means_open (v : VisibilityState) (evs : list Event) :
  let s := run throws (useEffect_setup throws (initial v)) evs in
  isUnmounting s = false ->
  isConnected s = true ->
  ws_is_open s = true.
Proof.
  intros s.
  exact (proj2 (run_badge evs _ (setup_single_channel throws v)
                  (setup_badge v))).
Qed.

(** X5. Once the table has been torn down no socket it constructed is
    connecting or open, whatever happened before the teardown and whatever
    events follow it: no channel outlives the view. *)
Theorem no_live_socket_after_teardown
  (v : VisibilityState) (evs late : list Event) (i : nat) :
  is_live_at i
    (env (run throws
            (useEffect_cleanup
               (run throws (useEffect_setup throws (initial v)) evs))
            late))
  = false.
Proof.
  set (s := run throws (useEffect_setup throws (initial v)) evs).
  assert (I : single_channel s)
    by (apply run_single_channel, setup_single_channel).
  assert (I0 : single_channel (useEffect_cleanup s)).
  { intros k L. now rewrite (cleanup_releases s I k) in L. }
  pose proof (run_single_channel throws late _ I0) as I1.
  destruct (run_torn_down throws late _ (proj1 (cleanup_torn_down s)))
    as [[_ W] _].
  destruct (is_live_at i _) eqn:L; auto.
  apply I1 in L. congruence.
Qed.

End TableBadge.

(** ** Page requests *)

Section PageRequests.
Import Browser CoinMarketTable.

(** X6. A page click while the current channel is open sends exactly one
    frame on that channel, carrying the clicked page and the page size of
    the page held, and changes nothing else: no socket is constructed or
    closed, no timeout is set and the rows stay until the server answers.
    A page click while the channel is not open is dropped: the state is
    left as it is. *)
Theorem page_change_sends_or_drops (newPage : Z) (s : State) :
  (ws_is_open s = false -> handlePageChange newPage s = s)
  /\ (forall i w,
        wsRef s = Some i ->
        nth_error (sockets (env s)) i = Some w ->
        readyState w = OPEN ->
        let s' := handlePageChange newPage s in
        nth_error (sockets (env s')) i
        = Some (mkWebSocket (url w) OPEN
                  (sent w
                   ++ [PageRequest.mk newPage
                         (PaginatedResponse.per_page (paginatedData s))]))
        /\ (forall j, j <> i ->
              nth_error (sockets (env s')) j = nth_error (sockets (env s)) j)
        /\ List.length (sockets (env s')) = List.length (sockets (env s))
        /\ timers (env s') = timers (env s)
        /\ nextTimer (env s') = nextTimer (env s)
        /\ wsRef s' = wsRef s
        /\ paginatedData s' = paginatedData s
        /\ isConnected s' = isConnected s
        /\ error s' = error s).
Proof.
  split.
  - intros O. unfold handlePageChange. now rewrite O.
  - intros i w W N R s'. subst s'.
    unfold handlePageChange, ws_is_open, readyState_of.
    rewrite W, N. simpl. rewrite R. simpl.
    rewrite update_nth_error_same, N, update_length. simpl.
    unfold send_socket. rewrite R.
    repeat split; try assumption.
    intros j D. now apply update_nth_error_other.
Qed.

End PageRequests.

(** ** A constructor that throws *)

Section ConstructorThrows.
Import Browser.

(** X7. When [new WebSocket] throws for the endpoint of a view, a mounted
    component of that view whose channel is not open ends without a channel:
    the channel it had has been closed and released, no socket exists that
    did not before, the failure text is shown with the connection flag off,
    and no timeout is set, so nothing retries the connection by itself.
    This holds for the table and for the detail view, each on its own
    endpoint. *)
Theorem connect_failure_leaves_no_retry
  (throws : string -> bool)
  (st : CoinMarketTable.State)
  (r : CurrencyDetailPage.Revision) (sd : CurrencyDetailPage.State r) :
  (CoinMarketTable.isUnmounting st = false ->
   CoinMarketTable.ws_is_open st = false ->
   throws CoinMarketTable.endpoint = true ->
   let st' := CoinMarketTable.connectWebSocket throws st in
   CoinMarketTable.wsRef st' = None
   /\ sockets (CoinMarketTable.env st')
      = match CoinMarketTable.wsRef st with
        | Some i => update i close_socket (sockets (CoinMarketTable.env st))
        | None => sockets (CoinMarketTable.env st)
        end
   /\ timers (CoinMarketTable.env st') = timers (CoinMarketTable.env st)
   /\ nextTimer (CoinMarketTable.env st') = nextTimer (CoinMarketTable.env st)
   /\ CoinMarketTable.error st' = Some "Failed to connect to WebSocket"
   /\ CoinMarketTable.isConnected st' = false)
  /\ (CurrencyDetailPage.isUnmounting sd = false ->
      CurrencyDetailPage.ws_is_open r sd = false ->
      throws (CurrencyDetailPage.endpoint (CurrencyDetailPage.symbol sd))
      = true ->
      let sd' := CurrencyDetailPage.connectWebSocket r throws sd in
      CurrencyDetailPage.wsRef sd' = None
      /\ sockets (CurrencyDetailPage.env sd')
         = match CurrencyDetailPage.wsRef sd with
           | Some i =>
               update i close_socket (sockets (CurrencyDetailPage.env sd))
           | None => sockets (CurrencyDetailPage.env sd)
           end
      /\ timers (CurrencyDetailPage.env sd')
         = timers (CurrencyDetailPage.env sd)
      /\ nextTimer (CurrencyDetailPage.env sd')
         = nextTimer (CurrencyDetailPage.env sd)
      /\ CurrencyDetailPage.error sd'
         = Some (CurrencyDetailPage.failureText r)
      /\ CurrencyDetailPage.isConnected sd' = false).
Proof.
  split.
  - intros Ut Ot Tt st'. subst st'.
    unfold CoinMarketTable.connectWebSocket. rewrite Ut, Ot. simpl.
    rewrite Tt. destruct (CoinMarketTable.wsRef st) eqn:W; simpl;
      rewrite ?Ut; simpl; rewrite ?W; repeat split.
  - intros Ud Od Td sd'. subst sd'.
    unfold CurrencyDetailPage.connectWebSocket. rewrite Ud, Od. simpl.
    destruct (CurrencyDetailPage.wsRef sd) eqn:W; simpl; rewrite Td;
      rewrite ?Ud; simpl; rewrite ?W; repeat split.
Qed.

End ConstructorThrows.

(** ** Reconnecting *)

Section Reconnecting.
Import Browser Channels CoinMarketTable TableChannels.

Variable throws : string -> bool.

Lemma all_closed_readyState (i : nat) (e : Env) :
  all_closed e = true ->
  readyState_of i e = Some CLOSED \/ readyState_of i e = None.
Proof.
  unfold all_closed, readyState_of. intros A.
  destruct (nth_error (sockets e) i) as [w|] eqn:N; auto.
  rewrite forallb_forall in A. specialize (A w (nth_error_In _ _ N)).
  simpl. destruct (readyState w); try discriminate. auto.
Qed.

Lemma all_closed_update (i : nat) (e : Env) :
  all_closed e = true -> update i close_socket (sockets e) = sockets e.
Proof.
  intros A.
  destruct (nth_error (sockets e) i) as [w|] eqn:N.
  - apply (update_fixpoint i close_socket _ w N).
    unfold all_closed in A. rewrite forallb_forall in A.
    specialize (A w (nth_error_In _ _ N)). unfold close_socket.
    destruct (readyState w); try discriminate. reflexivity.
  - revert i N. induction (sockets e) as [|x l IH]; intros [|i] N;
      simpl in *; try discriminate; auto. now rewrite IH.
Qed.

Lemma step_quiescent (s : State) (ev : Event) :
  all_closed (env s) = true ->
  timers (env s) = [] ->
  stays_hidden_or_as_is [ev] = true ->
  sockets (env (step throws s ev)) = sockets (env s)
  /\ timers (env (step throws s ev)) = []
  /\ nextTimer (env (step throws s ev)) = nextTimer (env s)
  /\ paginatedData (step throws s ev) = paginatedData s.
Proof.
  intros A T H.
  destruct ev as [ws|ws parsed|ws|ws c|h|v|p|]; simpl.
  - destruct (all_closed_readyState ws _ A) as [R|R]; rewrite R; auto.
  - destruct (all_closed_readyState ws _ A) as [R|R]; rewrite R; auto.
  - destruct (all_closed_readyState ws _ A) as [R|R]; rewrite R; auto.
  - destruct (all_closed_readyState ws _ A) as [R|R]; rewrite R; auto.
  - unfold pending. rewrite T. simpl. auto.
  - destruct v; [discriminate H|].
    destruct (listening s); simpl; auto.
  - unfold handlePageChange, ws_is_open.
    destruct (wsRef s) as [i|]; auto.
    destruct (all_closed_readyState i _ A) as [R|R]; rewrite R; auto.
  - unfold useEffect_cleanup. simpl.
    assert (C : forall h, clearTimeout h (env s) = env s).
    { intros h. unfold clearTimeout, set_timers. rewrite T. simpl.
      rewrite <- T. now destruct (env s). }
    destruct (reconnectTimeoutRef s); simpl; rewrite ?C;
      destruct (wsRef s); simpl;
      rewrite ?(all_closed_update _ _ A); auto.
Qed.

(** X8. When every socket of the table has closed and no timeout is
    pending (the state a clean close leaves), nothing reconnects by itself:
    as long as the tab does not become visible again, no event constructs a
    socket or sets a timeout, and the rows shown stay. *)
Theorem stays_disconnected_until_visible (evs : list Event) (s : State) :
  all_closed (env s) = true ->
  timers (env s) = [] ->
  stays_hidden_or_as_is evs = true ->
  sockets (env (run throws s evs)) = sockets (env s)
  /\ timers (env (run throws s evs)) = []
  /\ nextTimer (env (run throws s evs)) = nextTimer (env s)
  /\ paginatedData (run throws s evs) = paginatedData s.
Proof.
  unfold run. revert s.
  induction evs as [|ev evs IH]; intros s A T H; [auto|].
  cbn [fold_left].
  unfold stays_hidden_or_as_is in H. cbn [forallb] in H.
  apply andb_true_iff in H as [H1 H2].
  assert (H1' : stays_hidden_or_as_is [ev] = true)
    by (unfold stays_hidden_or_as_is; cbn [forallb]; now rewrite H1).
  destruct (step_quiescent s ev A T H1') as (S1 & T1 & N1 & P1).
  assert (A1 : all_closed (env (step throws s ev)) = true)
    by (unfold all_closed; now rewrite S1).
  destruct (IH _ A1 T1 H2) as (S2 & T2 & N2 & P2).
  repeat split; congruence.
Qed.



End Reconnecting.

(** ** Page count and labels *)

Section RenderingFacts.
Import Rendering.


Lemma prefix_other_head (p s : string) (a c : ascii) :
  a <> c -> String.prefix (String a p) (String c s) = false.
Proof. intros N. simpl. destruct (ascii_dec a c); [contradiction|auto]. Qed.

(** Replacing a pattern that starts with U passes over a text without U. *)
Lemma replace_passes (p s t : string) :
  no_capital_U s = true ->
  replace (String "U" p) "" (String.append s t)
  = String.append s (replace (String "U" p) "" t).
Proof.
  unfold no_capital_U. induction s as [|c s IH]; intros H; [reflexivity|].
  simpl in H. apply andb_true_iff in H as [C H].
  apply negb_true_iff, Ascii.eqb_neq in C.
  cbn [String.append]. cbn [replace].
  rewrite prefix_other_head by congruence.
  now rewrite IH.
Qed.

Lemma append_empty (s : string) : String.append s "" = s.
Proof. induction s as [|c s IH]; simpl; congruence. Qed.

(** X11. For a base asset whose name has no capital U, the dimmed label of
    a row is the base asset whether the symbol ends in USDT or in USDC, the
    subtitle of the detail view strips a USDT ending, and a symbol without
    either quote is shown as it is. *)
Theorem labels_strip_quote (base : string) :
  no_capital_U base = true ->
  baseLabel (String.append base "USDT") = base
  /\ baseLabel (String.append base "USDC") = base
  /\ chartLabel (String.append base "USDT") = base
  /\ baseLabel base = base.
Proof.
  intros H. unfold baseLabel, chartLabel.
  pose proof (replace_passes "SDT" base "USDT" H) as T1.
  pose proof (replace_passes "SDT" base "USDC" H) as T2.
  pose proof (replace_passes "SDC" base "USDC" H) as C2.
  pose proof (replace_passes "SDC" base "" H) as C0.
  pose proof (replace_passes "SDT" base "" H) as T0.
  change (replace "USDT" "" "USDT") with "" in T1.
  change (replace "USDT" "" "USDC") with "USDC" in T2.
  change (replace "USDC" "" "USDC") with "" in C2.
  change (replace "USDC" "" "") with "" in C0.
  change (replace "USDT" "" "") with "" in T0.
  rewrite !append_empty in T1, C2, C0, T0.
  rewrite T1, T2, C2, T0, C0. repeat split.
Qed.

End RenderingFacts.

(** ** The detail view under events *)

Section DetailRuns.
Import Browser Channels CurrencyDetailPage CurrencyDetailEvents DetailChannels.

Variable r : Revision.
Variable throws : string -> bool.
Variable Date_getTime : string -> option Z.
Variable toLocaleTimeString : string -> string.

Local Abbreviation step := (step r throws Date_getTime toLocaleTimeString).
Local Abbreviation run := (run r throws Date_getTime toLocaleTimeString).

Lemma detail_connect_single_channel (s : State r) :
  single_channel s -> single_channel (connectWebSocket r throws s).
Proof.
  intros I. unfold connectWebSocket.
  destruct (isUnmounting s || ws_is_open r s) eqn:G; [assumption|].
  set (s1 := match wsRef s with
             | Some i => set_wsRef r None (set_env r (close i (env s)) s)
             | None => s
             end).
  assert (R : wsRef s1 = None /\ forall i, is_live_at i (env s1) = false).
  { unfold s1. destruct (wsRef s) as [c|] eqn:W; simpl.
    - split; [reflexivity|]. intros i.
      destruct (Nat.eq_dec c i) as [->|N]; [apply live_after_close|].
      unfold close. rewrite live_update_other by assumption.
      destruct (is_live_at i (env s)) eqn:L; auto.
      apply I in L. congruence.
    - split; [assumption|]. intros i.
      destruct (is_live_at i (env s)) eqn:L; auto.
      apply I in L. congruence. }
  destruct R as [W1 L1].
  destruct (throws (endpoint (symbol s1))).
  - destruct (negb (isUnmounting s1)); intros i L; simpl in L;
      rewrite L1 in L; discriminate.
  - intros i L. simpl in L. simpl.
    apply (live_construct i (endpoint (symbol s1)) (env s1)) in L.
    destruct L as [L| ->]; [rewrite L1 in L; discriminate | reflexivity].
Qed.

Lemma detail_cleanup_releases (s : State r) :
  single_channel s ->
  forall i, is_live_at i (env (useEffect_cleanup r s)) = false.
Proof.
  intros I i. unfold useEffect_cleanup.
  set (s2 := match reconnectTimeoutRef _ with Some h => _ | None => _ end).
  assert (S2 : sockets (env s2) = sockets (env s))
    by (unfold s2; simpl; now destruct (reconnectTimeoutRef s)).
  assert (W2 : wsRef s2 = wsRef s)
    by (unfold s2; simpl; now destruct (reconnectTimeoutRef s)).
  assert (L2 : is_live_at i (env s2) = true -> wsRef s2 = Some i).
  { unfold is_live_at, readyState_of. rewrite S2, W2. apply I. }
  destruct (wsRef s2) as [c|] eqn:W; simpl.
  - destruct (Nat.eq_dec c i) as [->|N]; [apply live_after_close|].
    unfold close. rewrite live_update_other by assumption.
    destruct (is_live_at i (env s2)); auto.
    specialize (L2 eq_refl). congruence.
  - destruct (is_live_at i (env s2)); auto.
    specialize (L2 eq_refl). discriminate.
Qed.

Lemma detail_step_single_channel (s : State r) (ev : Event) :
  single_channel s -> single_channel (step s ev).
Proof.
  intros I. destruct ev as [ws|ws parsed|ws|ws c|h|v|]; simpl.
  - destruct (readyState_of ws (env s)) as [[]|] eqn:R; try assumption.
    assert (C : wsRef s = Some ws)
      by (apply I; unfold is_live_at; now rewrite R).
    intros i L.
    assert (W : wsRef (onopen r (set_socket_state r ws OPEN s)) = wsRef s)
      by (unfold onopen; simpl; now destruct (isUnmounting s)).
    rewrite W. destruct (Nat.eq_dec ws i) as [<-|N]; [assumption|].
    apply I. revert L. unfold onopen. simpl.
    destruct (isUnmounting s); simpl;
      rewrite ?live_update_other by assumption; auto.
  - destruct (readyState_of ws (env s)) as [[]|]; try assumption;
      unfold onmessage; destruct (isUnmounting s); simpl; try assumption;
      destruct parsed as [b|]; try assumption;
      destruct (reduce r Date_getTime toLocaleTimeString b); assumption.
  - destruct (readyState_of ws (env s)) as [[]|]; try assumption;
      unfold onerror; destruct (isUnmounting s); simpl; assumption.
  - assert (D : forall i,
               is_live_at i (env (set_socket_state r ws CLOSED s)) = true ->
               wsRef s = Some i).
    { intros i L. apply I. revert L. apply live_update_down.
      intros w. simpl. auto. }
    destruct (readyState_of ws (env s)) as [[]|]; try assumption;
      unfold onclose; simpl; destruct (isUnmounting s); simpl;
      try exact D;
      match goal with
      | |- context [if ?b then _ else _] => destruct b
      end; exact D.
  - destruct (pending h (env s)); [|assumption].
    apply detail_connect_single_channel. exact I.
  - destruct (listening s); [|exact I].
    unfold handleVisibilityChange. simpl.
    destruct (is_visible _); [|exact I].
    apply detail_connect_single_channel. exact I.
  - intros i L. now rewrite (detail_cleanup_releases s I i) in L.
Qed.

Lemma detail_run_single_channel (evs : list Event) (s : State r) :
  single_channel s -> single_channel (run s evs).
Proof.
  unfold CurrencyDetailEvents.run. revert s.
  induction evs as [|ev evs IH]; intros s I; simpl; auto.
  apply IH. now apply detail_step_single_channel.
Qed.

Lemma detail_setup_single_channel (param : option string)
  (v : VisibilityState) :
  single_channel (useEffect_setup r throws (initial r param v)).
Proof.
  apply detail_connect_single_channel. intros i L.
  unfold is_live_at, readyState_of in L. simpl in L.
  destruct i; discriminate.
Qed.

Lemma detail_connect_badge (s : State r) :
  live_badge_sound s -> live_badge_sound (connectWebSocket r throws s).
Proof.
  intros J. unfold connectWebSocket.
  destruct (isUnmounting s || ws_is_open r s) eqn:G; [assumption|].
  apply orb_false_iff in G as [U O].
  assert (C : isConnected s = false).
  { destruct (isConnected s) eqn:C; auto.
    rewrite (J U C) in O. discriminate. }
  unfold live_badge_sound.
  destruct (wsRef s); simpl;
    match goal with
    | |- context [if ?b then _ else _] => destruct b
    end; simpl; rewrite ?U; simpl; intros _ C'; congruence.
Qed.

Lemma detail_step_badge (s : State r) (ev : Event) :
  single_channel s -> live_badge_sound s -> live_badge_sound (step s ev).
Proof.
  intros I J. destruct ev as [ws|ws parsed|ws|ws c|h|v|]; simpl.
  - destruct (readyState_of ws (env s)) as [[]|] eqn:R; try assumption.
    assert (C : wsRef s = Some ws)
      by (apply I; unfold is_live_at; now rewrite R).
    unfold live_badge_sound, onopen. simpl.
    destruct (isUnmounting s) eqn:U; simpl;
      [intros U'; simpl in U'; congruence|]. intros _ _.
    unfold ws_is_open. simpl. rewrite C.
    unfold readyState_of in *. simpl.
    rewrite !update_nth_error_same.
    destruct (nth_error (sockets (env s)) ws); [reflexivity|discriminate].
  - destruct (readyState_of ws (env s)) as [[]|]; try assumption;
      unfold onmessage; destruct (isUnmounting s) eqn:U; simpl;
      try assumption; destruct parsed as [b|]; try assumption;
      destruct (reduce r Date_getTime toLocaleTimeString b);
      try assumption; intros U' C'; exact (J U C').
  - destruct (readyState_of ws (env s)) as [[]|]; try assumption;
      unfold onerror; destruct (isUnmounting s) eqn:U; simpl;
      try assumption; intros _ C'; discriminate C'.
  - destruct (readyState_of ws (env s)) as [[]|]; try assumption;
      unfold onclose; simpl; destruct (isUnmounting s) eqn:U; simpl;
      try (intros U'; simpl in U'; congruence);
      match goal with
      | |- context [if ?b then _ else _] => destruct b
      end; intros _ C'; discriminate C'.
  - destruct (pending h (env s)); [|assumption].
    apply detail_connect_badge. exact J.
  - destruct (listening s); [|exact J].
    unfold handleVisibilityChange. simpl.
    destruct (is_visible _); [|exact J].
    apply detail_connect_badge. exact J.
  - unfold live_badge_sound, useEffect_cleanup. simpl.
    destruct (reconnectTimeoutRef s); simpl; destruct (wsRef s); simpl;
      discriminate.
Qed.

Lemma detail_run_badge (evs : list Event) (s : State r) :
  single_channel s -> live_badge_sound s ->
  single_channel (run s evs) /\ live_badge_sound (run s evs).
Proof.
  unfold CurrencyDetailEvents.run. revert s.
  induction evs as [|ev evs IH]; intros s I J; simpl; auto.
  apply IH;
    [now apply detail_step_single_channel | now apply detail_step_badge].
Qed.

Lemma detail_no_activity_refl (s : State r) : no_activity s s.
Proof. unfold no_activity. repeat split. apply incl_refl. Qed.

Lemma detail_no_activity_trans (a b c : State r) :
  no_activity a b -> no_activity b c -> no_activity a c.
Proof.
  unfold no_activity.
  intros (L1 & N1 & I1 & P1 & C1 & E1) (L2 & N2 & I2 & P2 & C2 & E2).
  repeat split; try congruence.
  eapply incl_tran; eassumption.
Qed.

Lemma detail_cleanup_torn_down (s : State r) :
  torn_down (useEffect_cleanup r s)
  /\ no_activity s (useEffect_cleanup r s).
Proof.
  unfold torn_down, no_activity. open_detail. open_browser.
  split_cases; simpl; rewrite ?update_length;
    repeat split; auto using incl_refl, incl_filter.
Qed.

Lemma detail_step_torn_down (s : State r) (ev : Event) :
  torn_down s -> torn_down (step s ev) /\ no_activity s (step s ev).
Proof.
  unfold torn_down, no_activity. intros [U W].
  destruct ev; open_detail; open_browser; rewrite ?U, ?W; simpl;
    rewrite ?U, ?W; simpl; split_cases; simpl;
    rewrite ?update_length;
    repeat split; auto using incl_refl, incl_filter.
Qed.

Lemma detail_run_torn_down (evs : list Event) (s : State r) :
  torn_down s -> torn_down (run s evs) /\ no_activity s (run s evs).
Proof.
  unfold CurrencyDetailEvents.run. revert s.
  induction evs as [|ev evs IH]; intros s T; simpl.
  - split; [assumption | apply detail_no_activity_refl].
  - destruct (detail_step_torn_down s ev T) as [T1 A1].
    destruct (IH _ T1) as [T2 A2].
    split; [assumption | eapply detail_no_activity_trans; eassumption].
Qed.

(** X12. In every state the detail view reaches from its mount (either
    revision, one run of its effect), at most one socket is connecting or
    open and it is the one the channel reference holds; and while the view
    is mounted the connection flag is set only when that channel is open. *)
Theorem detail_single_live_channel
  (param : option string) (v : VisibilityState) (evs : list Event) :
  let s := run (useEffect_setup r throws (initial r param v)) evs in
  (forall i j,
     is_live_at i (env s) = true -> is_live_at j (env s) = true ->
     i = j /\ wsRef s = Some i)
  /\ (isUnmounting s = false -> isConnected s = true ->
      ws_is_open r s = true).
Proof.
  intros s.
  assert (J0 : live_badge_sound
                 (useEffect_setup r throws (initial r param v)))
    by (apply detail_connect_badge; intros _ C; discriminate C).
  destruct (detail_run_badge evs _ (detail_setup_single_channel param v) J0)
    as [I J].
  fold s in I, J. split; [|exact J].
  intros i j Li Lj. pose proof (I i Li). pose proof (I j Lj).
  split; [congruence | assumption].
Qed.

(** X13. For one run of the detail view's effect that ends in unmount
    (either revision; the symbol does not change, so the effect is not run
    again after its cleanup): once the cleanup has run, whatever events of
    that run came before it and whatever socket events, timeouts and
    visibility changes follow, no socket is constructed and no timeout is
    set, the series shown, the connection flag and the error text stay as
    they were, and no socket is connecting or open. *)
Theorem detail_teardown_is_final
  (param : option string) (v : VisibilityState) (evs late : list Event) :
  let s := run (useEffect_setup r throws (initial r param v)) evs in
  let s' := run (useEffect_cleanup r s) late in
  isUnmounting s' = true
  /\ wsRef s' = None
  /\ List.length (sockets (env s')) = List.length (sockets (env s))
  /\ nextTimer (env s') = nextTimer (env s)
  /\ incl (timers (env s')) (timers (env s))
  /\ data s' = data s
  /\ isConnected s' = isConnected s
  /\ error s' = error s
  /\ forall i, is_live_at i (env s') = false.
Proof.
  intros s s'.
  assert (I : single_channel s)
    by (apply detail_run_single_channel, detail_setup_single_channel).
  destruct (detail_cleanup_torn_down s) as [T0 A0].
  destruct (detail_run_torn_down late _ T0) as [[U W] A1].
  fold s' in U, W, A1.
  pose proof (detail_no_activity_trans _ _ _ A0 A1) as A.
  assert (I0 : single_channel (useEffect_cleanup r s)).
  { intros k L. now rewrite (detail_cleanup_releases s I k) in L. }
  pose proof (detail_run_single_channel late _ I0) as I1. fold s' in I1.
  split; [exact U|]. split; [exact W|].
  destruct A as (A1' & A2 & A3 & A4 & A5 & A6).
  repeat (split; [assumption|]).
  intros i. destruct (is_live_at i (env s')) eqn:L; auto.
  apply I1 in L. congruence.
Qed.

End DetailRuns.

(** ** The properties above on sample runs *)

Section ScenarioChecks.
Import Browser Channels Samples Scenarios.

Lemma table_state_is_last_decoded_witness :
  CoinMarketTable.isUnmounting mountedTable = false
  /\ CoinMarketTable.paginatedData
       (CoinMarketTable.receive mountedTable
          [Some firstPage; Some thirdPage; None])
     = thirdPage.
Proof.
  split; [reflexivity|].
  exact (proj1 (table_state_is_last_decoded
                  [Some firstPage; Some thirdPage; None] mountedTable
                  eq_refl)).
Defined.

Lemma chart_series_is_last_batch_witness :
  CurrencyDetailPage.isUnmounting mountedChart = false
  /\ forallb (fun batch =>
                forallb (CurrencyDetailPage.is_dated getTime) batch)
             (Feed.decoded chartFrames) = true
  /\ CurrencyDetailPage.data
       (CurrencyDetailEvents.receive CurrencyDetailPage.PriceChart
          getTime clock mountedChart chartFrames)
     = map (CurrencyDetailPage.process clock) [early; late].
Proof.
  split; [reflexivity|]. split; [reflexivity|].
  exact (chart_series_is_last_batch getTime clock chartFrames mountedChart
           eq_refl eq_refl).
Defined.

Lemma table_single_live_channel_witness :
  is_live_at 0 (CoinMarketTable.env liveTable) = true
  /\ CoinMarketTable.wsRef liveTable = Some 0.
Proof.
  split; [reflexivity|].
  exact (proj2 (table_single_live_channel never_throws visible
                  [CoinMarketTable.Open 0] 0 0 eq_refl eq_refl)).
Defined.

Lemma live_badge_means_open_witness :
  CoinMarketTable.isUnmounting liveTable = false
  /\ CoinMarketTable.isConnected liveTable = true
  /\ CoinMarketTable.ws_is_open liveTable = true.
Proof.
  split; [reflexivity|]. split; [reflexivity|].
  exact (live_badge_means_open never_throws visible
           [CoinMarketTable.Open 0] eq_refl eq_refl).
Defined.

Lemma page_change_sends_or_drops_witness :
  CoinMarketTable.ws_is_open mountedTable = false
  /\ CoinMarketTable.handlePageChange 3 mountedTable = mountedTable
  /\ nth_error
       (sockets (CoinMarketTable.env
                   (CoinMarketTable.handlePageChange 3 liveTable))) 0
     = Some (mkWebSocket CoinMarketTable.endpoint OPEN
               [PageRequest.mk 1 30; PageRequest.mk 3 30]).
Proof.
  split; [reflexivity|].
  split.
  - exact (proj1 (page_change_sends_or_drops 3 mountedTable) eq_refl).
  - exact (proj1 (proj2 (page_change_sends_or_drops 3 liveTable) 0
                    (mkWebSocket CoinMarketTable.endpoint OPEN
                       [PageRequest.mk 1 30])
                    eq_refl eq_refl eq_refl)).
Defined.

Lemma connect_failure_leaves_no_retry_witness :
  always_throws CoinMarketTable.endpoint = true
  /\ throws_on_fragment CoinMarketTable.endpoint = false
  /\ throws_on_fragment
       (CurrencyDetailPage.endpoint (CurrencyDetailPage.symbol fragmentChart))
     = true
  /\ timers (CoinMarketTable.env
               (CoinMarketTable.connectWebSocket always_throws
                  (CoinMarketTable.initial visible))) = []
  /\ CurrencyDetailPage.error
       (CurrencyDetailPage.connectWebSocket CurrencyDetailPage.PriceChart
          throws_on_fragment fragmentChart)
     = Some (CurrencyDetailPage.failureText CurrencyDetailPage.PriceChart)
  /\ sockets
       (CurrencyDetailPage.env
          (CurrencyDetailPage.connectWebSocket CurrencyDetailPage.PriceChart
             throws_on_fragment fragmentChart))
     = [].
Proof.
  pose proof (proj1 (connect_failure_leaves_no_retry always_throws
                       (CoinMarketTable.initial visible)
                       CurrencyDetailPage.PriceChart fragmentChart)
                eq_refl eq_refl eq_refl) as H.
  pose proof (proj2 (connect_failure_leaves_no_retry throws_on_fragment
                       (CoinMarketTable.initial visible)
                       CurrencyDetailPage.PriceChart fragmentChart)
                eq_refl eq_refl eq_refl) as K.
  cbv zeta in H, K.
  destruct H as (_ & _ & T & _). destruct K as (_ & S & _ & _ & E & _).
  split; [reflexivity|]. split; [reflexivity|]. split; [reflexivity|].
  split; [exact T|]. split; [exact E | exact S].
Defined.

Lemma stays_disconnected_until_visible_witness :
  all_closed (CoinMarketTable.env cleanlyClosed) = true
  /\ timers (CoinMarketTable.env cleanlyClosed) = []
  /\ TableChannels.stays_hidden_or_as_is idleEvents = true
  /\ sockets (CoinMarketTable.env
                (CoinMarketTable.run never_throws cleanlyClosed idleEvents))
     = sockets (CoinMarketTable.env cleanlyClosed).
Proof.
  split; [reflexivity|]. split; [reflexivity|]. split; [reflexivity|].
  exact (proj1 (stays_disconnected_until_visible never_throws idleEvents
                  cleanlyClosed eq_refl eq_refl eq_refl)).
Defined.



Lemma labels_strip_quote_witness :
  Rendering.no_capital_U "BTC" = true
  /\ Rendering.baseLabel "BTCUSDT" = "BTC"
  /\ Rendering.chartLabel "BTCUSDT" = "BTC".
Proof.
  split; [reflexivity|].
  destruct (labels_strip_quote "BTC" eq_refl) as (B & _ & C & _).
  split; [exact B | exact C].
Defined.

Lemma detail_single_live_channel_witness :
  is_live_at 0 (CurrencyDetailPage.env mountedChart) = true
  /\ CurrencyDetailPage.wsRef mountedChart = Some 0.
Proof.
  split; [reflexivity|].
  exact (proj2 (proj1 (detail_single_live_channel
                         CurrencyDetailPage.PriceChart never_throws
                         getTime clock (Some "ETHUSDT") visible [])
                  0 0 eq_refl eq_refl)).
Defined.

End ScenarioChecks.

(** ** The target of the detail view's sockets *)

Section DetailTarget.
Import Browser CurrencyDetailPage CurrencyDetailEvents.

Variable r : Revision.
Variable throws : string -> bool.
Variable Date_getTime : string -> option Z.
Variable toLocaleTimeString : string -> string.

Lemma update_Forall (P : WebSocket -> Prop) (i : nat)
  (f : WebSocket -> WebSocket) (l : list WebSocket) :
  (forall w, P w -> P (f w)) -> Forall P l -> Forall P (update i f l).
Proof.
  intros F H. revert i. induction H as [|w l Hw Hl IH]; intros [|i]; simpl;
    constructor; auto.
Qed.

Lemma close_socket_url (w : WebSocket) : url (close_socket w) = url w.
Proof. unfold close_socket. destruct (readyState w); reflexivity. Qed.

Lemma detail_connect_target (u : string) (s : State r) :
  endpoint (symbol s) = u ->
  Forall (fun w => url w = u) (sockets (env s)) ->
  symbol (connectWebSocket r throws s) = symbol s
  /\ Forall (fun w => url w = u)
       (sockets (env (connectWebSocket r throws s))).
Proof.
  intros E F. unfold connectWebSocket.
  destruct (isUnmounting s || ws_is_open r s); [auto|].
  assert (F1 : forall i,
             Forall (fun w => url w = u)
                    (update i close_socket (sockets (env s)))).
  { intros i. apply update_Forall; [|assumption].
    intros w. now rewrite close_socket_url. }
  destruct (wsRef s) as [c|]; simpl; rewrite E;
    destruct (throws u); simpl;
    try match goal with
        | |- context [if ?b then _ else _] => destruct b
        end; simpl; split; auto;
    apply Forall_app; split; auto; repeat constructor.
Qed.

Lemma detail_step_target (u : string) (s : State r) (ev : Event) :
  endpoint (symbol s) = u ->
  Forall (fun w => url w = u) (sockets (env s)) ->
  symbol (step r throws Date_getTime toLocaleTimeString s ev) = symbol s
  /\ Forall (fun w => url w = u)
       (sockets (env (step r throws Date_getTime toLocaleTimeString s ev))).
Proof.
  intros E F.
  assert (F1 : forall i st,
             Forall (fun w => url w = u)
                    (update i (set_readyState st) (sockets (env s))))
    by (intros i st; apply update_Forall; auto).
  assert (F2 : forall i,
             Forall (fun w => url w = u)
                    (update i close_socket (sockets (env s)))).
  { intros i. apply update_Forall; [|assumption].
    intros w. now rewrite close_socket_url. }
  destruct ev as [ws|ws parsed|ws|ws c|h|v|]; simpl.
  - destruct (readyState_of ws (env s)) as [[]|]; auto.
    unfold onopen. simpl. destruct (isUnmounting s); simpl; auto.
  - destruct (readyState_of ws (env s)) as [[]|]; auto;
      unfold onmessage; destruct (isUnmounting s); simpl; auto;
      destruct parsed as [b|]; auto;
      destruct (reduce r Date_getTime toLocaleTimeString b); simpl; auto.
  - destruct (readyState_of ws (env s)) as [[]|]; auto;
      unfold onerror; destruct (isUnmounting s); simpl; auto.
  - destruct (readyState_of ws (env s)) as [[]|]; auto;
      unfold onclose; simpl; destruct (isUnmounting s); simpl; auto;
      match goal with
      | |- context [if ?b then _ else _] => destruct b
      end; simpl; auto.
  - destruct (pending h (env s)); auto.
    exact (detail_connect_target u
             (set_env r (clearTimeout h (env s)) s) E F).
  - destruct (listening s); simpl; auto.
    unfold handleVisibilityChange. simpl.
    destruct (is_visible _); simpl; auto.
    exact (detail_connect_target u
             (set_env r (set_visibilityState v (env s)) s) E F).
  - unfold useEffect_cleanup. simpl.
    destruct (reconnectTimeoutRef s); simpl; destruct (wsRef s); simpl; auto.
Qed.

(** X14. Every socket the detail view constructs, on mount or on any later
    reconnect, is aimed at ws://127.0.0.1:8080/currency/ followed by the
    symbol of the route (BTCUSDT when the route gives none): one run of
    the effect serves one symbol only. *)
Theorem detail_sockets_target_symbol
  (param : option string) (v : VisibilityState) (evs : list Event) :
  Forall (fun w =>
            url w
            = String.append "ws://127.0.0.1:8080/currency/"
                            (resolveSymbol param))
         (sockets (env (run r throws Date_getTime toLocaleTimeString
                          (useEffect_setup r throws (initial r param v))
                          evs))).
Proof.
  set (u := String.append "ws://127.0.0.1:8080/currency/"
                          (resolveSymbol param)).
  assert (G : forall (l : list Event) (s : State r),
             endpoint (symbol s) = u ->
             Forall (fun w => url w = u) (sockets (env s)) ->
             Forall (fun w => url w = u)
                    (sockets (env (run r throws Date_getTime
                                     toLocaleTimeString s l)))).
  { unfold run. induction l as [|ev l IH]; intros s E F; simpl; auto.
    destruct (detail_step_target u s ev E F) as [S1 F1].
    apply IH; [now rewrite S1 | assumption]. }
  destruct (detail_connect_target u
              (set_listening r true
                 (set_isUnmounting r false (initial r param v)))
              eq_refl (Forall_nil _)) as [S0 F0].
  apply G; [|exact F0].
  unfold useEffect_setup. now rewrite S0.
Qed.

End DetailTarget.
